(** * Generic water heater: the hysteresis controller of
      [custom_components/generic_water_heater/water_heater.py]

    The Python class [GenericWaterHeater] is embedded as a record of its
    mutable attributes together with a small monad that threads the record,
    collects the observable effects of a handler in a trace, and propagates
    Python exceptions.  Attribute and method names are those of the source.

    Numbers.  Python floats are IEEE 754 binary64 values: they are modelled
    by the standard library's [spec_float] at precision 53 and maximal
    exponent 1024, with its correctly rounded operations, infinities and
    NaN.  The integers a configuration may hold are read as the floats of
    the same value.

    Host.  A handler sees the host through [hass], the state machine
    [hass.states] as a finite map from entity ids to state objects, read at
    most once per handler run.  A run is followed up to the calls it makes
    into the host: a service call and the publication call
    [async_write_ha_state()] are recorded as events, with the attributes of
    the entity at the time of the call.  What the host does inside such a
    call is not part of the run.  In particular the host reads properties
    of the entity when it publishes; the two property reads that are code
    of this class and can write an attribute or raise, [min_temp] and
    [max_temp], are modelled as operations of their own ([GetMinTemp] and
    [GetMaxTemp]), which a history may place after any handler. *)

From Stdlib Require Import ZArith Lia QArith SpecFloat.
From stdpp Require Import base strings gmap list.

Local Open Scope string_scope.
Local Open Scope list_scope.

(** ** Python floats *)

Abbreviation pyfloat := spec_float (only parsing).

Definition prec : Z := 53.
Definition emax : Z := 1024.

(** [float(n)] for an integer [n]. *)
Definition float_of_int (n : Z) : pyfloat := binary_normalize prec emax n 0 false.

(** [x - y], [abs(x)], [x < y], [x <= y], [x / y] and [x == 0] on floats. *)
Definition float_sub (x y : pyfloat) : pyfloat := SFsub prec emax x y.
Definition float_abs (x : pyfloat) : pyfloat := SFabs x.
Definition float_lt (x y : pyfloat) : bool := SFltb x y.
Definition float_le (x y : pyfloat) : bool := SFleb x y.
Definition float_div (x y : pyfloat) : pyfloat := SFdiv prec emax x y.
Definition float_is_zero (x : pyfloat) : bool := SFeqb x (S754_zero false).

(** A finite binary64 value: a zero or a finite number in canonical form. *)
Definition is_finite (x : pyfloat) : bool :=
  match x with
  | S754_zero _ | S754_finite _ _ _ => true
  | _ => false
  end.

Definition finite_float (x : pyfloat) : bool :=
  is_finite x && valid_binary prec emax x.

Definition is_nan (x : pyfloat) : bool :=
  match x with
  | S754_nan => true
  | _ => false
  end.

(** Zero, positive or plus infinity. *)
Definition nonneg (x : pyfloat) : bool :=
  match x with
  | S754_zero _ => true
  | S754_finite s _ _ | S754_infinity s => negb s
  | S754_nan => false
  end.

(** [x] with the sign [s]. *)
Definition with_sign (s : bool) (x : pyfloat) : pyfloat :=
  match x with
  | S754_zero _ => S754_zero s
  | S754_infinity _ => S754_infinity s
  | S754_nan => S754_nan
  | S754_finite _ m e => S754_finite s m e
  end.

(** The signed mantissa of a finite number once its exponent is lowered to
    [ez], as the subtraction aligns it. *)
Definition aligned (s : bool) (m : positive) (e ez : Z) : Z :=
  cond_Zopp s (Zpos (fst (shl_align m e ez))).

(** The exact value of a finite float, for statements that compare with
    real arithmetic. *)
Definition exact_value (x : pyfloat) : Q :=
  match x with
  | S754_finite s m e =>
      match e with
      | Zneg p => Qmake (cond_Zopp s (Zpos m)) (2 ^ p)
      | _ => inject_Z (cond_Zopp s (Zpos m) * 2 ^ e)
      end
  | _ => 0%Q
  end.

(** ** Constants of the host platform (homeassistant.const and
       homeassistant.components.water_heater) *)

Definition STATE_ON : string := "on".
Definition STATE_OFF : string := "off".
Definition STATE_UNAVAILABLE : string := "unavailable".
Definition STATE_UNKNOWN : string := "unknown".
Definition SERVICE_TURN_ON : string := "turn_on".
Definition SERVICE_TURN_OFF : string := "turn_off".
Definition HA_DOMAIN : string := "homeassistant".
Definition ATTR_TEMPERATURE : string := "temperature".
Definition TEMP_FAHRENHEIT : string := "°F".
Definition DEFAULT_MIN_TEMP : pyfloat := float_of_int 110.
Definition DEFAULT_MAX_TEMP : pyfloat := float_of_int 140.

(** ** Data model *)

(** A value stored in the attribute dictionary of a host state object, in
    the shapes [float] tells apart: [None], a number, a string. *)
Inductive Value : Type :=
| VNone
| VNum (q : pyfloat)
| VStr (s : string).

(** [homeassistant.core.State]: the state string and the attributes. *)
Record State : Type := mkState {
  state : string;
  attributes : gmap string Value
}.

(** The instance attributes assigned by [GenericWaterHeater.__init__]. *)
Record GenericWaterHeater : Type := mkHeater {
  _attr_name : string;
  heater_entity_id : string;
  sensor_entity_id : string;
  _target_temperature : option pyfloat;
  _temperature_delta : option pyfloat;
  _min_temp : option pyfloat;
  _max_temp : option pyfloat;
  _unit_of_measurement : string;
  _current_operation : string;
  _current_temperature : option pyfloat;
  _attr_available : bool
}.

(** [__init__]: mode starts as [STATE_ON], no reading, not available. *)
Definition __init__ (name heater_id sensor_id : string)
    (target_temp temp_delta min_t max_t : option pyfloat) (unit : string)
  : GenericWaterHeater :=
  {| _attr_name := name;
     heater_entity_id := heater_id;
     sensor_entity_id := sensor_id;
     _target_temperature := target_temp;
     _temperature_delta := temp_delta;
     _min_temp := min_t;
     _max_temp := max_t;
     _unit_of_measurement := unit;
     _current_operation := STATE_ON;
     _current_temperature := None;
     _attr_available := false |}.

Definition _operation_list : list string := [STATE_ON; STATE_OFF].

(** Attribute assignments [self.x = v]. *)
Definition set_target_temperature (v : option pyfloat) (e : GenericWaterHeater) :=
  mkHeater (_attr_name e) (heater_entity_id e) (sensor_entity_id e)
    v (_temperature_delta e) (_min_temp e) (_max_temp e)
    (_unit_of_measurement e) (_current_operation e)
    (_current_temperature e) (_attr_available e).

Definition set_min_temp (v : option pyfloat) (e : GenericWaterHeater) :=
  mkHeater (_attr_name e) (heater_entity_id e) (sensor_entity_id e)
    (_target_temperature e) (_temperature_delta e) v (_max_temp e)
    (_unit_of_measurement e) (_current_operation e)
    (_current_temperature e) (_attr_available e).

Definition set_max_temp (v : option pyfloat) (e : GenericWaterHeater) :=
  mkHeater (_attr_name e) (heater_entity_id e) (sensor_entity_id e)
    (_target_temperature e) (_temperature_delta e) (_min_temp e) v
    (_unit_of_measurement e) (_current_operation e)
    (_current_temperature e) (_attr_available e).

Definition set_current_operation (v : string) (e : GenericWaterHeater) :=
  mkHeater (_attr_name e) (heater_entity_id e) (sensor_entity_id e)
    (_target_temperature e) (_temperature_delta e) (_min_temp e) (_max_temp e)
    (_unit_of_measurement e) v
    (_current_temperature e) (_attr_available e).

Definition set_current_temperature (v : option pyfloat) (e : GenericWaterHeater) :=
  mkHeater (_attr_name e) (heater_entity_id e) (sensor_entity_id e)
    (_target_temperature e) (_temperature_delta e) (_min_temp e) (_max_temp e)
    (_unit_of_measurement e) (_current_operation e)
    v (_attr_available e).

Definition set_attr_available (v : bool) (e : GenericWaterHeater) :=
  mkHeater (_attr_name e) (heater_entity_id e) (sensor_entity_id e)
    (_target_temperature e) (_temperature_delta e) (_min_temp e) (_max_temp e)
    (_unit_of_measurement e) (_current_operation e)
    (_current_temperature e) v.

(** ** Effects *)

(** The coroutines and callbacks of the class whose calls are recorded. *)
Inductive Method : Type :=
| control_heating
| heater_turn_on
| heater_turn_off
| sensor_changed
| switch_changed.

(** Observable effects of a handler, in the order they happen:
    - [Call m]: the body of method [m] is entered;
    - [Warning id]: the failsafe warning of [_async_sensor_changed];
    - [Track id m]: [async_track_state_change_event] subscribes [m] to [id];
    - [ServiceCall d s id]: [hass.services.async_call(d, s, {entity_id: id})];
    - [WriteHaState e]: [async_write_ha_state()] is called while the
      attributes are [e].
    Debug logging is not recorded. *)
Inductive Event : Type :=
| Call (m : Method)
| Warning (entity_id : string)
| Track (entity_id : string) (m : Method)
| ServiceCall (domain service entity_id : string)
| WriteHaState (e : GenericWaterHeater).

Inductive Exn : Type :=
| TypeError
| ValueError.

Inductive Outcome (A : Type) : Type :=
| Return (a : A)
| Raise (x : Exn).
Arguments Return {A} a.
Arguments Raise {A} x.

(** A computation reads and updates [self], emits events, and either
    returns or raises.  Assignments made before an exception persist, as
    they do in Python. *)
Definition M (A : Type) : Type :=
  GenericWaterHeater -> Outcome A * GenericWaterHeater * list Event.

Definition ret {A} (a : A) : M A := fun e => (Return a, e, []).

Definition bind {A B} (m : M A) (k : A -> M B) : M B :=
  fun e =>
    match m e with
    | (Return a, e1, t1) =>
        match k a e1 with
        | (o, e2, t2) => (o, e2, t1 ++ t2)
        end
    | (Raise x, e1, t1) => (Raise x, e1, t1)
    end.

#[global] Instance M_ret : MRet M := @ret.
#[global] Instance M_bind : MBind M := fun A B k m => bind m k.

Definition raise {A} (x : Exn) : M A := fun e => (Raise x, e, []).
Definition get_self : M GenericWaterHeater := fun e => (Return e, e, []).
Definition assign (f : GenericWaterHeater -> GenericWaterHeater) : M unit :=
  fun e => (Return tt, f e, []).
Definition emit (ev : Event) : M unit := fun e => (Return tt, e, [ev]).

(** Projections of a finished run. *)
Definition outcome {A} (r : Outcome A * GenericWaterHeater * list Event) := r.1.1.
Definition final {A} (r : Outcome A * GenericWaterHeater * list Event) := r.1.2.
Definition trace {A} (r : Outcome A * GenericWaterHeater * list Event) := r.2.

(** ** Python primitives *)

(** Truth value of an optional number: [None] and the zeros are false. *)
Definition truthy (v : option pyfloat) : bool :=
  match v with
  | None => false
  | Some q => negb (float_is_zero q)
  end.

(** [a - b] and [a > b] with operands that may be [None]: Python raises
    [TypeError] for a [None] operand. *)
Definition py_sub (a b : option pyfloat) : M pyfloat :=
  match a, b with
  | Some x, Some y => mret (float_sub x y)
  | _, _ => raise TypeError
  end.

Definition py_gt (a : pyfloat) (b : option pyfloat) : M bool :=
  match b with
  | Some y => mret (float_lt y a)
  | None => raise TypeError
  end.

Definition py_lt (a b : option pyfloat) : M bool :=
  match a, b with
  | Some x, Some y => mret (float_lt x y)
  | _, _ => raise TypeError
  end.

(** [s in (STATE_UNAVAILABLE, STATE_UNKNOWN)]. *)
Definition is_marker (s : string) : bool :=
  String.eqb s STATE_UNAVAILABLE || String.eqb s STATE_UNKNOWN.

(** The call [self.async_write_ha_state()], recorded with the attributes at
    the time of the call; the host's work inside the call is left out (see
    the head of the file). *)
Definition async_write_ha_state : M unit :=
  e ← get_self; emit (WriteHaState e).

(** ** The command handlers *)

(** [_async_heater_turn_on]: nothing is sent when the host has no state
    for the heater or the heater already reports [STATE_ON]. *)
Definition _async_heater_turn_on (hass : gmap string State) : M unit :=
  emit (Call heater_turn_on);;
  e ← get_self;
  match hass !! heater_entity_id e with
  | None => mret tt
  | Some heater =>
      if String.eqb (state heater) STATE_ON then mret tt
      else emit (ServiceCall HA_DOMAIN SERVICE_TURN_ON (heater_entity_id e))
  end.

(** [_async_heater_turn_off]. *)
Definition _async_heater_turn_off (hass : gmap string State) : M unit :=
  emit (Call heater_turn_off);;
  e ← get_self;
  match hass !! heater_entity_id e with
  | None => mret tt
  | Some heater =>
      if String.eqb (state heater) STATE_OFF then mret tt
      else emit (ServiceCall HA_DOMAIN SERVICE_TURN_OFF (heater_entity_id e))
  end.

(** [_async_control_heating]: the band decision, then the publication. *)
Definition _async_control_heating (hass : gmap string State) : M unit :=
  emit (Call control_heating);;
  e ← get_self;
  match _current_temperature e with
  | None => mret tt
  | Some cur =>
      if String.eqb (_current_operation e) STATE_OFF then
        _async_heater_turn_off hass
      else
        d ← py_sub (Some cur) (_target_temperature e);
        out_of_band ← py_gt (float_abs d) (_temperature_delta e);
        if out_of_band : bool then
          below ← py_lt (Some cur) (_target_temperature e);
          if below : bool then _async_heater_turn_on hass
          else _async_heater_turn_off hass
        else mret tt
  end;;
  async_write_ha_state.

(** ** The entity's handlers

    Two functions of the host library are parameters of the development:
    [convert], whatever the module binds to that name, called with a
    temperature and two units (the conversion function of
    [homeassistant.util.temperature], which returns a number or raises, or
    the class [TemperatureConverter], whose call with arguments raises
    [TypeError]), and [str_to_float], the parsing done by Python's [float]
    on a string ([None] when Python raises [ValueError]). *)

Section Handlers.

Variable convert : pyfloat -> string -> string -> Outcome pyfloat.
Variable str_to_float : string -> option pyfloat.

(** The outcome of a call into the host library. *)
Definition host_call {A} (o : Outcome A) : M A := fun e => (o, e, []).

(** Python's [float(v)]. *)
Definition py_float (v : Value) : M pyfloat :=
  match v with
  | VNum q => mret q
  | VStr s =>
      match str_to_float s with
      | Some q => mret q
      | None => raise ValueError
      end
  | VNone => raise TypeError
  end.

(** Property [min_temp]: [if not self._min_temp] replaces the attribute by
    the converted platform default, then the attribute is returned. *)
Definition min_temp : M (option pyfloat) :=
  e ← get_self;
  (if negb (truthy (_min_temp e)) then
     d ← host_call (convert DEFAULT_MIN_TEMP TEMP_FAHRENHEIT
                            (_unit_of_measurement e));
     assign (set_min_temp (Some d))
   else mret tt);;
  e' ← get_self;
  mret (_min_temp e').

(** Property [max_temp]. *)
Definition max_temp : M (option pyfloat) :=
  e ← get_self;
  (if negb (truthy (_max_temp e)) then
     d ← host_call (convert DEFAULT_MAX_TEMP TEMP_FAHRENHEIT
                            (_unit_of_measurement e));
     assign (set_max_temp (Some d))
   else mret tt);;
  e' ← get_self;
  mret (_max_temp e').

(** [async_set_temperature]; [kwargs] are the keyword arguments. *)
Definition async_set_temperature (hass : gmap string State)
    (kwargs : gmap string pyfloat) : M unit :=
  assign (set_target_temperature (kwargs !! ATTR_TEMPERATURE));;
  _async_control_heating hass.

(** [async_set_operation_mode(operation_mode)]. *)
Definition async_set_operation_mode (hass : gmap string State)
    (operation_mode : string) : M unit :=
  assign (set_current_operation operation_mode);;
  _async_control_heating hass.

(** [d.get(k)] on an attribute dictionary. *)
Definition attr_get (d : gmap string Value) (k : string) : Value :=
  default VNone (d !! k).

(** [async_added_to_hass]; [last_state] is what [async_get_last_state]
    returns, [hass] the host's current states. *)
Definition async_added_to_hass (hass : gmap string State)
    (last_state : option State) : M unit :=
  e ← get_self;
  emit (Track (sensor_entity_id e) sensor_changed);;
  emit (Track (heater_entity_id e) switch_changed);;
  match last_state with
  | Some old_state =>
      match attr_get (attributes old_state) ATTR_TEMPERATURE with
      | VNone => mret tt
      | v => t ← py_float v; assign (set_target_temperature (Some t))
      end;;
      assign (set_current_operation (state old_state))
  | None => mret tt
  end;;
  match hass !! sensor_entity_id e with
  | Some temp_sensor =>
      if negb (is_marker (state temp_sensor)) then
        t ← py_float (VStr (state temp_sensor));
        assign (set_current_temperature (Some t))
      else mret tt
  | None => mret tt
  end;;
  match hass !! heater_entity_id e with
  | Some heater_switch =>
      if negb (is_marker (state heater_switch)) then
        assign (set_attr_available true)
      else mret tt
  | None => mret tt
  end;;
  async_write_ha_state.

(** The failsafe branch of [_async_sensor_changed]. *)
Definition failsafe (hass : gmap string State) : M unit :=
  e ← get_self;
  emit (Warning (heater_entity_id e));;
  _async_heater_turn_off hass;;
  assign (set_current_temperature None).

(** [_async_sensor_changed(event)]; [new_state] is
    [event.data.get("new_state")]. *)
Definition _async_sensor_changed (hass : gmap string State)
    (new_state : option State) : M unit :=
  emit (Call sensor_changed);;
  match new_state with
  | None => failsafe hass
  | Some st =>
      if is_marker (state st) then failsafe hass
      else
        t ← py_float (VStr (state st));
        assign (set_current_temperature (Some t))
  end;;
  _async_control_heating hass.

(** [_async_switch_changed(event)]. *)
Definition _async_switch_changed (new_state : option State) : M unit :=
  emit (Call switch_changed);;
  match new_state with
  | None => assign (set_attr_available false)
  | Some st =>
      if is_marker (state st) then assign (set_attr_available false)
      else
        assign (set_attr_available true);;
        e ← get_self;
        if String.eqb (state st) STATE_ON
           && String.eqb (_current_operation e) STATE_OFF
        then assign (set_current_operation STATE_ON)
        else if String.eqb (state st) STATE_OFF
                && String.eqb (_current_operation e) STATE_ON
        then assign (set_current_operation STATE_OFF)
        else mret tt
  end;;
  async_write_ha_state.

(** ** Operations the host can run on an entity *)

Inductive Op : Type :=
| SetTemperature (kwargs : gmap string pyfloat)
| SetOperationMode (operation_mode : string)
| AddedToHass (last_state : option State)
| SensorChanged (new_state : option State)
| SwitchChanged (new_state : option State)
| ControlHeating
| HeaterTurnOn
| HeaterTurnOff
| GetMinTemp
| GetMaxTemp.

Definition handle (hass : gmap string State) (op : Op) : M unit :=
  match op with
  | SetTemperature kwargs => async_set_temperature hass kwargs
  | SetOperationMode m => async_set_operation_mode hass m
  | AddedToHass last_state => async_added_to_hass hass last_state
  | SensorChanged new_state => _async_sensor_changed hass new_state
  | SwitchChanged new_state => _async_switch_changed new_state
  | ControlHeating => _async_control_heating hass
  | HeaterTurnOn => _async_heater_turn_on hass
  | HeaterTurnOff => _async_heater_turn_off hass
  | GetMinTemp => min_temp;; mret tt
  | GetMaxTemp => max_temp;; mret tt
  end.

(** A history: each operation runs against the host states of its time; an
    operation that raises leaves the attributes as they were at the raise
    and the host goes on with the next one. *)
Fixpoint run (h : list (gmap string State * Op)) (e : GenericWaterHeater)
  : GenericWaterHeater :=
  match h with
  | [] => e
  | (hass, op) :: h' => run h' (final (handle hass op e))
  end.

End Handlers.

(** ** Vocabulary of the statements *)

(** What [_async_heater_turn_on] sends to the host. *)
Definition sent_on (hass : gmap string State) (e : GenericWaterHeater)
  : list Event :=
  match hass !! heater_entity_id e with
  | None => []
  | Some heater =>
      if String.eqb (state heater) STATE_ON then []
      else [ServiceCall HA_DOMAIN SERVICE_TURN_ON (heater_entity_id e)]
  end.

Definition sent_off (hass : gmap string State) (e : GenericWaterHeater)
  : list Event :=
  match hass !! heater_entity_id e with
  | None => []
  | Some heater =>
      if String.eqb (state heater) STATE_OFF then []
      else [ServiceCall HA_DOMAIN SERVICE_TURN_OFF (heater_entity_id e)]
  end.

(** The events between entry and publication in a completed comparison. *)
Definition decision_events (hass : gmap string State) (e : GenericWaterHeater)
    (cur tgt tol : pyfloat) : list Event :=
  if float_lt tol (float_abs (float_sub cur tgt)) then
    if float_lt cur tgt then Call heater_turn_on :: sent_on hass e
    else Call heater_turn_off :: sent_off hass e
  else [].

(** The two commands, to state what they share. *)
Inductive Command : Type :=
| TurnOn
| TurnOff.

Definition commandActuator (c : Command) : gmap string State -> M unit :=
  match c with
  | TurnOn => _async_heater_turn_on
  | TurnOff => _async_heater_turn_off
  end.

Definition desired_state (c : Command) : string :=
  match c with TurnOn => STATE_ON | TurnOff => STATE_OFF end.

Definition command_service (c : Command) : string :=
  match c with TurnOn => SERVICE_TURN_ON | TurnOff => SERVICE_TURN_OFF end.

Definition command_method (c : Command) : Method :=
  match c with TurnOn => heater_turn_on | TurnOff => heater_turn_off end.

Definition sent (c : Command) : gmap string State -> GenericWaterHeater -> list Event :=
  match c with TurnOn => sent_on | TurnOff => sent_off end.

(** The outbound part of a trace: the service calls, in order. *)
Definition is_service_call (ev : Event) : bool :=
  match ev with
  | ServiceCall _ _ _ => true
  | _ => false
  end.

Definition service_calls (t : list Event) : list Event :=
  List.filter is_service_call t.

(** The condition [new_state is None or new_state.state in
    (STATE_UNAVAILABLE, STATE_UNKNOWN)] of the two event callbacks. *)
Definition no_valid_state (new_state : option State) : bool :=
  match new_state with
  | None => true
  | Some st => is_marker (state st)
  end.

(** The number Python's [float] yields for a value, if any. *)
Definition float_value (str_to_float : string -> option pyfloat) (v : Value) : option pyfloat :=
  match v with
  | VNone => None
  | VNum q => Some q
  | VStr s => str_to_float s
  end.

(** [x and x.state not in (STATE_UNAVAILABLE, STATE_UNKNOWN)] for the host
    state of [entity_id]: the state object when the test passes. *)
Definition live_valid (hass : gmap string State) (entity_id : string) : option State :=
  match hass !! entity_id with
  | Some st => if is_marker (state st) then None else Some st
  | None => None
  end.

(** The [temperature] attribute of the restored state, [VNone] without one. *)
Definition restored_temperature (last_state : option State) : Value :=
  match last_state with
  | Some old_state => attr_get (attributes old_state) ATTR_TEMPERATURE
  | None => VNone
  end.

(** The trace of [async_added_to_hass] is made of subscriptions and at most
    one publication, whether it completes or raises. *)
Definition quiet (ev : Event) : bool :=
  match ev with
  | Track _ _ | WriteHaState _ => true
  | _ => false
  end.

(** The number an operation delivers as a reading, if it delivers one: a
    valid numeric sensor state in the event, or the live sensor state at
    attach. *)
Definition op_reading (str_to_float : string -> option pyfloat) (sensor_id : string)
    (hass : gmap string State) (op : Op) : option pyfloat :=
  match op with
  | SensorChanged (Some st) =>
      if is_marker (state st) then None else str_to_float (state st)
  | AddedToHass _ =>
      match live_valid hass sensor_id with
      | Some st => str_to_float (state st)
      | None => None
      end
  | _ => None
  end.

Definition fresh_readings (str_to_float : string -> option pyfloat) (sensor_id : string)
    (history : list (gmap string State * Op)) : list pyfloat :=
  omap (fun x => op_reading str_to_float sensor_id x.1 x.2) history.

(** The modes the declared operation list allows. *)
Definition valid_mode (e : GenericWaterHeater) : Prop :=
  _current_operation e ∈ _operation_list.

(** Operations whose mode argument, or restored state, is in the list. *)
Definition op_in_range (op : Op) : Prop :=
  match op with
  | SetOperationMode m => m ∈ _operation_list
  | AddedToHass (Some old_state) => state old_state ∈ _operation_list
  | _ => True
  end.

(** ** Example data *)

(** A freshly constructed entity with target 120 and tolerance 2, a host
    where the heater reports [heater_state], and the entity after the
    reading [q]. *)
Definition demo_heater : GenericWaterHeater :=
  __init__ "boiler" "switch.boiler" "sensor.boiler" (Some (float_of_int 120)) (Some (float_of_int 2))
    None None TEMP_FAHRENHEIT.

Definition demo_hass (heater_state : string) : gmap string State :=
  {[ "switch.boiler" := mkState heater_state ∅ ]}.

Definition demo_reading (n : Z) : GenericWaterHeater :=
  set_current_temperature (Some (float_of_int n)) demo_heater.

Definition demo_off_no_reading : GenericWaterHeater :=
  set_current_operation STATE_OFF demo_heater.

Definition demo_no_target : GenericWaterHeater :=
  set_current_temperature (Some (float_of_int 115))
    (__init__ "boiler" "switch.boiler" "sensor.boiler" None (Some (float_of_int 2))
       None None TEMP_FAHRENHEIT).

(** The doubles nearest to 0.3, 1.0 and 0.7, and an entity in mode ON
    reading the first against the second as target and the third as
    tolerance. *)
Definition demo_tie_reading : pyfloat :=
  float_div (float_of_int 3) (float_of_int 10).

Definition demo_tie_target : pyfloat := float_of_int 1.

Definition demo_tie_tolerance : pyfloat :=
  float_div (float_of_int 7) (float_of_int 10).

Definition demo_tie : GenericWaterHeater :=
  set_current_temperature (Some demo_tie_reading)
    (__init__ "boiler" "switch.boiler" "sensor.boiler"
       (Some demo_tie_target) (Some demo_tie_tolerance) None None TEMP_FAHRENHEIT).

(** A parser for the examples: the readings "115", "121", "123". *)
Definition demo_float (s : string) : option pyfloat :=
  if String.eqb s "115" then Some (float_of_int 115)
  else if String.eqb s "121" then Some (float_of_int 121)
  else if String.eqb s "123" then Some (float_of_int 123)
  else None.

(** A snapshot with target 130 and mode OFF. *)
Definition demo_snapshot : State :=
  mkState STATE_OFF {[ ATTR_TEMPERATURE := VNum (float_of_int 130) ]}.

(** Fahrenheit to Celsius, [(t - 32) / 1.8], standing for the conversion
    function in the examples, and the class whose call raises. *)
Definition demo_convert (t : pyfloat) (from_unit to_unit : string)
  : Outcome pyfloat :=
  if String.eqb from_unit to_unit then Return t
  else Return (float_div (float_sub t (float_of_int 32))
                         (float_div (float_of_int 9) (float_of_int 5))).

(** A Celsius entity with no limit configured. *)
Definition demo_celsius : GenericWaterHeater :=
  __init__ "boiler" "switch.boiler" "sensor.boiler"
    (Some (float_of_int 50)) (Some (float_of_int 2)) None None "°C".

Definition demo_min_celsius : pyfloat :=
  float_div (float_sub (float_of_int 110) (float_of_int 32))
            (float_div (float_of_int 9) (float_of_int 5)).

Definition demo_converter_class (t : pyfloat) (from_unit to_unit : string)
  : Outcome pyfloat :=
  Raise TypeError.

(** ** The read-only properties of the entity *)

Definition current_temperature (e : GenericWaterHeater) : option pyfloat :=
  _current_temperature e.

Definition temperature_unit (e : GenericWaterHeater) : string :=
  _unit_of_measurement e.

Definition target_temperature (e : GenericWaterHeater) : option pyfloat :=
  _target_temperature e.

Definition current_operation (e : GenericWaterHeater) : string :=
  _current_operation e.

Definition operation_list (e : GenericWaterHeater) : list string :=
  _operation_list.

(** ** Platform setup

    [async_setup_platform] walks [discovery_info], builds one entity per
    configuration dictionary and hands the list to [async_add_entities].
    A configuration dictionary is a record with one optional field per key
    ([None]: the key is absent); the key names themselves are declared in
    the package's [__init__] module.  [config[k]] raises [KeyError] on an
    absent key, [config.get(k)] gives [None]. *)

Record Config : Type := mkConfig {
  conf_name : option string;
  conf_heater : option string;
  conf_sensor : option string;
  conf_target_temp : option pyfloat;
  conf_temp_delta : option pyfloat;
  conf_temp_min : option pyfloat;
  conf_temp_max : option pyfloat
}.

(** The keys read with [config[k]]. *)
Inductive ConfKey : Type :=
| CONF_NAME
| CONF_HEATER
| CONF_SENSOR.

(** How the setup can fail: a missing key, or iterating over [None] (the
    default of [discovery_info]), which is a [TypeError]. *)
Inductive SetupError : Type :=
| KeyError (key : ConfKey)
| NoneNotIterable.

(** The loop of [async_setup_platform]; [unit] is
    [hass.config.units.temperature_unit], [entities] the list built so far. *)
Fixpoint setup_loop (unit : string) (discovery_info : list Config)
    (entities : list GenericWaterHeater)
  : SetupError + list GenericWaterHeater :=
  match discovery_info with
  | [] => inr entities
  | config :: rest =>
      match conf_name config with
      | None => inl (KeyError CONF_NAME)
      | Some name =>
          match conf_heater config with
          | None => inl (KeyError CONF_HEATER)
          | Some heater_id =>
              match conf_sensor config with
              | None => inl (KeyError CONF_SENSOR)
              | Some sensor_id =>
                  setup_loop unit rest
                    (entities ++
                     [__init__ name heater_id sensor_id
                        (conf_target_temp config) (conf_temp_delta config)
                        (conf_temp_min config) (conf_temp_max config) unit])
              end
          end
      end
  end.

(** [async_setup_platform]: [inr l] when [async_add_entities(l)] is reached,
    [inl x] when [x] is raised before. *)
Definition async_setup_platform (unit : string)
    (discovery_info : option (list Config))
  : SetupError + list GenericWaterHeater :=
  match discovery_info with
  | None => inl NoneNotIterable
  | Some l => setup_loop unit l []
  end.

(** ** More vocabulary *)

(** A configuration with the three mandatory keys. *)
Definition complete (config : Config) : bool :=
  match conf_name config, conf_heater config, conf_sensor config with
  | Some _, Some _, Some _ => true
  | _, _, _ => false
  end.

(** The entity a complete configuration describes. *)
Definition entity_of (unit : string) (config : Config) : GenericWaterHeater :=
  __init__ (default "" (conf_name config)) (default "" (conf_heater config))
    (default "" (conf_sensor config))
    (conf_target_temp config) (conf_temp_delta config)
    (conf_temp_min config) (conf_temp_max config) unit.

(** The service calls of a control re-evaluation. *)
Definition control_sends (hass : gmap string State) (e : GenericWaterHeater)
  : list Event :=
  match _current_temperature e with
  | None => []
  | Some cur =>
      if String.eqb (_current_operation e) STATE_OFF then sent_off hass e
      else
        match _target_temperature e, _temperature_delta e with
        | Some tgt, Some tol =>
            if float_lt tol (float_abs (float_sub cur tgt)) then
              if float_lt cur tgt then sent_on hass e else sent_off hass e
            else []
        | _, _ => []
        end
  end.

(** The condition under which the control re-evaluation raises. *)
Definition control_faults (e : GenericWaterHeater) : bool :=
  match _current_temperature e with
  | None => false
  | Some _ =>
      negb (String.eqb (_current_operation e) STATE_OFF)
      && match _target_temperature e, _temperature_delta e with
         | Some _, Some _ => false
         | _, _ => true
         end
  end.

(** The service calls of an operation. *)
Definition op_sends (str_to_float : string -> option pyfloat)
    (hass : gmap string State) (op : Op) (e : GenericWaterHeater) : list Event :=
  match op with
  | SetTemperature kwargs =>
      control_sends hass (set_target_temperature (kwargs !! ATTR_TEMPERATURE) e)
  | SetOperationMode m => control_sends hass (set_current_operation m e)
  | SensorChanged new_state =>
      match new_state with
      | None => sent_off hass e
      | Some st =>
          if is_marker (state st) then sent_off hass e
          else match str_to_float (state st) with
               | Some q => control_sends hass (set_current_temperature (Some q) e)
               | None => []
               end
      end
  | ControlHeating => control_sends hass e
  | HeaterTurnOn => sent_on hass e
  | HeaterTurnOff => sent_off hass e
  | AddedToHass _ | SwitchChanged _ | GetMinTemp | GetMaxTemp => []
  end.

(** Operations that assign the mode whatever it is. *)
Definition writes_mode (op : Op) : bool :=
  match op with
  | SetOperationMode _ | AddedToHass (Some _) => true
  | _ => false
  end.

(** Operations that assign the availability. *)
Definition writes_available (op : Op) : bool :=
  match op with
  | SwitchChanged _ | AddedToHass _ => true
  | _ => false
  end.

(** The publications of a trace. *)
(** Two outcomes of host calls that both return, or raise the same
    exception. *)
Definition Exn_eqb (x y : Exn) : bool :=
  match x, y with
  | TypeError, TypeError | ValueError, ValueError => true
  | _, _ => false
  end.

Definition fail_alike {A B} (o1 : Outcome A) (o2 : Outcome B) : bool :=
  match o1, o2 with
  | Return _, Return _ => true
  | Raise x, Raise y => Exn_eqb x y
  | _, _ => false
  end.

Definition is_publication (ev : Event) : bool :=
  match ev with
  | WriteHaState _ => true
  | _ => false
  end.

Definition publications (t : list Event) : list Event :=
  List.filter is_publication t.

(** What is fixed at construction: name, entity ids, unit and tolerance. *)
Definition configuration (e : GenericWaterHeater)
  : string * string * string * string * option pyfloat :=
  (_attr_name e, heater_entity_id e, sensor_entity_id e,
   _unit_of_measurement e, _temperature_delta e).

(** The first mandatory key a configuration lacks, in the order the setup
    reads them. *)
Definition missing_key (config : Config) : option ConfKey :=
  match conf_name config with
  | None => Some CONF_NAME
  | Some _ =>
      match conf_heater config with
      | None => Some CONF_HEATER
      | Some _ =>
          match conf_sensor config with
          | None => Some CONF_SENSOR
          | Some _ => None
          end
      end
  end.

(** The events of a trace other than the publications. *)
Definition non_publications (t : list Event) : list Event :=
  List.filter (fun ev => negb (is_publication ev)) t.

(** Two configurations for the setup: a complete one, which describes
    [demo_heater], and one without a sensor. *)
Definition demo_config : Config :=
  mkConfig (Some "boiler") (Some "switch.boiler") (Some "sensor.boiler")
    (Some (float_of_int 120)) (Some (float_of_int 2)) None None.

Definition demo_config_no_sensor : Config :=
  mkConfig (Some "tank") (Some "switch.tank") None None None None None.

(** * Properties *)

(** ** Computing with the monad *)


Ltac unfold_m :=
  unfold mbind, M_bind, bind, mret, M_ret, ret, emit, get_self, assign,
    raise, outcome, final, trace in *.

(** ** Binary64 arithmetic *)

(** The sign of a rounded number is the sign given to the rounding. *)
Lemma binary_round_aux_sign s m e l :
  binary_round_aux prec emax s m e l
  = with_sign s (binary_round_aux prec emax false m e l).
Proof.
  unfold binary_round_aux.
  destruct (shr_fexp prec emax m e l) as [mrs' e'].
  destruct (shr_fexp prec emax _ e' loc_Exact) as [mrs'' e''].
  destruct (shr_m mrs''); try reflexivity.
  destruct (e'' <=? emax - prec)%Z; reflexivity.
Qed.

Lemma binary_round_sign s m e :
  binary_round prec emax s m e = with_sign s (binary_round prec emax false m e).
Proof.
  unfold binary_round. destruct (shl_align _ _ _) as [mz ez].
  apply binary_round_aux_sign.
Qed.

(** Shifting keeps mantissas non-negative, so rounding never yields NaN. *)
Lemma shr_1_nonneg mrs : (0 <= shr_m mrs)%Z -> (0 <= shr_m (shr_1 mrs))%Z.
Proof.
  destruct mrs as [m r s]. simpl. intros H.
  destruct m as [|p|p]; [simpl; lia | destruct p; simpl; lia | lia].
Qed.

Lemma iter_pos_nonneg n : forall mrs,
  (0 <= shr_m mrs)%Z -> (0 <= shr_m (SpecFloat.iter_pos shr_1 n mrs))%Z.
Proof.
  induction n as [n IH|n IH|]; intros mrs H; simpl.
  - apply IH, IH, shr_1_nonneg, H.
  - apply IH, IH, H.
  - apply shr_1_nonneg, H.
Qed.

Lemma shr_fexp_nonneg m e l :
  (0 <= m)%Z -> (0 <= shr_m (fst (shr_fexp prec emax m e l)))%Z.
Proof.
  intros H. unfold shr_fexp, shr.
  assert (H0 : (0 <= shr_m (shr_record_of_loc m l))%Z).
  { destruct l as [|[ | | ]]; exact H. }
  destruct (fexp prec emax (Zdigits2 m + e) - e)%Z; simpl; try exact H0.
  apply iter_pos_nonneg, H0.
Qed.

Lemma round_nearest_even_nonneg m l : (0 <= m)%Z -> (0 <= round_nearest_even m l)%Z.
Proof.
  intros H. destruct l as [|[ | | ]]; simpl; try lia.
  destruct (Z.even m); lia.
Qed.

Lemma binary_round_aux_not_nan s m e l :
  (0 <= m)%Z -> is_nan (binary_round_aux prec emax s m e l) = false.
Proof.
  intros H. unfold binary_round_aux.
  pose proof (shr_fexp_nonneg m e l H) as H1.
  destruct (shr_fexp prec emax m e l) as [mrs' e']. simpl in H1.
  pose proof (shr_fexp_nonneg _ e' loc_Exact
                (round_nearest_even_nonneg _ (loc_of_shr_record mrs') H1)) as H2.
  destruct (shr_fexp prec emax _ e' loc_Exact) as [mrs'' e'']. simpl in H2.
  destruct (shr_m mrs''); try reflexivity; try lia.
  destruct (e'' <=? emax - prec)%Z; reflexivity.
Qed.

Lemma binary_round_not_nan s m e : is_nan (binary_round prec emax s m e) = false.
Proof.
  unfold binary_round. destruct (shl_align _ _ _) as [mz ez].
  apply binary_round_aux_not_nan. lia.
Qed.

Lemma binary_round_nonneg m e : nonneg (binary_round prec emax false m e) = true.
Proof.
  pose proof (binary_round_not_nan false m e) as Hn.
  rewrite binary_round_sign.
  destruct (binary_round prec emax false m e); try reflexivity. discriminate.
Qed.

(** Alignment and canonical mantissas. *)

Lemma pos_iter_xO m d : Zpos (Pos.iter xO m d) = (Zpos m * 2 ^ Zpos d)%Z.
Proof.
  induction d as [|d IH] using Pos.peano_ind.
  - simpl. lia.
  - rewrite Pos.iter_succ, Pos2Z.inj_xO, IH, Pos2Z.inj_succ, Z.pow_succ_r by lia.
    lia.
Qed.

Lemma shl_align_value m e ez :
  (ez <= e)%Z -> Zpos (fst (shl_align m e ez)) = (Zpos m * 2 ^ (e - ez))%Z.
Proof.
  intros H. unfold shl_align.
  destruct (ez - e)%Z as [|p|p] eqn:E.
  - replace (e - ez)%Z with 0%Z by lia. simpl. lia.
  - lia.
  - simpl. rewrite pos_iter_xO. replace (e - ez)%Z with (Zpos p) by lia. reflexivity.
Qed.

Lemma digits2_pos_bounds m :
  (2 ^ (Zpos (digits2_pos m) - 1) <= Zpos m < 2 ^ Zpos (digits2_pos m))%Z.
Proof.
  induction m as [m IH|m IH|]; simpl digits2_pos.
  - rewrite Pos2Z.inj_succ.
    replace (Z.succ (Zpos (digits2_pos m)) - 1)%Z with (Z.succ (Zpos (digits2_pos m) - 1))%Z by lia.
    rewrite !Z.pow_succ_r by lia. lia.
  - rewrite Pos2Z.inj_succ.
    replace (Z.succ (Zpos (digits2_pos m)) - 1)%Z with (Z.succ (Zpos (digits2_pos m) - 1))%Z by lia.
    rewrite !Z.pow_succ_r by lia. lia.
  - simpl. lia.
Qed.

Lemma bounded_canonical m e :
  bounded prec emax m e = true ->
  (Zpos (digits2_pos m) <= 53 /\ -1074 <= e /\
   (e = -1074 \/ Zpos (digits2_pos m) = 53))%Z.
Proof.
  unfold bounded, canonical_mantissa, fexp, emin, prec, emax.
  intros H. apply andb_true_iff in H as [H _]. apply Z.eqb_eq in H. lia.
Qed.

Lemma magnitude_lt m1 e1 m2 e2 :
  bounded prec emax m1 e1 = true -> bounded prec emax m2 e2 = true ->
  (e1 < e2)%Z -> (Zpos m1 < Zpos m2 * 2 ^ (e2 - e1))%Z.
Proof.
  intros H1 H2 Hlt.
  apply bounded_canonical in H1 as (Hd1 & He1 & _).
  apply bounded_canonical in H2 as (Hd2 & He2 & [He|Hd]); [lia|].
  pose proof (digits2_pos_bounds m1) as [_ B1].
  pose proof (digits2_pos_bounds m2) as [B2 _].
  rewrite Hd in B2.
  assert (P1 : (2 ^ Zpos (digits2_pos m1) <= 2 ^ 53)%Z)
    by (apply Z.pow_le_mono_r; lia).
  assert (P2 : (2 ^ 1 <= 2 ^ (e2 - e1))%Z) by (apply Z.pow_le_mono_r; lia).
  change (2 ^ (53 - 1))%Z with 4503599627370496%Z in B2.
  change (2 ^ 53)%Z with 9007199254740992%Z in P1.
  change (2 ^ 1)%Z with 2%Z in P2.
  nia.
Qed.

Lemma compare_aligned s1 m1 e1 s2 m2 e2 :
  bounded prec emax m1 e1 = true -> bounded prec emax m2 e2 = true ->
  SFcompare (S754_finite s1 m1 e1) (S754_finite s2 m2 e2)
  = Some (Z.compare (aligned s1 m1 e1 (Z.min e1 e2)) (aligned s2 m2 e2 (Z.min e1 e2))).
Proof.
  intros H1 H2. unfold aligned.
  rewrite !shl_align_value by lia.
  assert (Hmag :
    match (e1 ?= e2)%Z with
    | Eq => Pos.compare_cont Eq m1 m2
    | Lt => Lt
    | Gt => Gt
    end = (Zpos m1 * 2 ^ (e1 - Z.min e1 e2) ?= Zpos m2 * 2 ^ (e2 - Z.min e1 e2))%Z).
  { destruct (Z.compare_spec e1 e2) as [Heq|Hlt|Hgt].
    - subst e2. rewrite Z.min_id, Z.sub_diag. simpl Z.pow. rewrite !Z.mul_1_r.
      reflexivity.
    - rewrite Z.min_l by lia. rewrite Z.sub_diag. simpl Z.pow at 1. rewrite Z.mul_1_r.
      symmetry. apply Z.compare_lt_iff. apply magnitude_lt; assumption.
    - rewrite Z.min_r by lia. rewrite Z.sub_diag. simpl (2 ^ 0)%Z. rewrite Z.mul_1_r.
      symmetry. apply Z.compare_gt_iff. apply magnitude_lt; assumption. }
  assert (P1 : (0 < Zpos m1 * 2 ^ (e1 - Z.min e1 e2))%Z)
    by (apply Z.mul_pos_pos; [lia | apply Z.pow_pos_nonneg; lia]).
  assert (P2 : (0 < Zpos m2 * 2 ^ (e2 - Z.min e1 e2))%Z)
    by (apply Z.mul_pos_pos; [lia | apply Z.pow_pos_nonneg; lia]).
  simpl SFcompare. f_equal.
  destruct s1, s2; simpl cond_Zopp.
  - rewrite Z.compare_opp.
    rewrite (Z.compare_antisym (Zpos m1 * 2 ^ (e1 - Z.min e1 e2))
               (Zpos m2 * 2 ^ (e2 - Z.min e1 e2))), <- Hmag.
    destruct (e1 ?= e2)%Z; reflexivity.
  - symmetry. apply Z.compare_lt_iff. lia.
  - symmetry. apply Z.compare_gt_iff. lia.
  - exact Hmag.
Qed.

(** Subtraction against comparison. *)

Lemma with_sign_nonneg s R :
  nonneg R = true -> nonneg (with_sign false R) = true /\
  with_sign s (with_sign false R) = with_sign s R.
Proof. destruct R; simpl; auto; try discriminate. Qed.

Lemma binary_normalize_opp z e :
  z <> 0%Z ->
  exists R, nonneg R = true /\
    ((0 < z)%Z -> binary_normalize prec emax z e false = with_sign false R /\
                  binary_normalize prec emax (- z) e false = with_sign true R) /\
    ((z < 0)%Z -> binary_normalize prec emax z e false = with_sign true R /\
                  binary_normalize prec emax (- z) e false = with_sign false R).
Proof.
  intros Hz. destruct z as [|p|p]; [contradiction| |].
  - exists (binary_round prec emax false p e).
    pose proof (binary_round_nonneg p e) as Hn. split; [exact Hn|]. split; [|lia].
    intros _. simpl. split; [apply (binary_round_sign false)|apply (binary_round_sign true)].
  - exists (binary_round prec emax false p e).
    pose proof (binary_round_nonneg p e) as Hn. split; [exact Hn|]. split; [lia|].
    intros _. simpl. split; [apply (binary_round_sign true)|apply (binary_round_sign false)].
Qed.

(** The outcome of the two subtractions of finite numbers, by the way the
    numbers compare. *)
Lemma float_sub_cases x y :
  is_finite x = true -> is_finite y = true -> valid_binary prec emax x = true -> valid_binary prec emax y = true ->
  exists R, nonneg R = true /\
    match SFcompare x y with
    | Some Lt => float_sub x y = with_sign true R /\ float_sub y x = with_sign false R
    | Some Gt => float_sub x y = with_sign false R /\ float_sub y x = with_sign true R
    | Some Eq => exists s s', float_sub x y = S754_zero s /\ float_sub y x = S754_zero s'
    | None => False
    end.
Proof.
  intros Fx Fy Vx Vy.
  destruct x as [sx| | |sx mx ex]; try discriminate;
    destruct y as [sy| | |sy my ey]; try discriminate.
  - exists (S754_zero false). split; [reflexivity|]. simpl.
    destruct sx, sy; simpl; eauto.
  - exists (S754_finite false my ey). split; [reflexivity|]. simpl.
    destruct sy; simpl; auto.
  - exists (S754_finite false mx ex). split; [reflexivity|]. simpl.
    destruct sx; simpl; auto.
  - simpl in Vx, Vy.
    rewrite (compare_aligned sx mx ex sy my ey Vx Vy).
    set (ez := Z.min ex ey).
    assert (Hxy : float_sub (S754_finite sx mx ex) (S754_finite sy my ey)
                  = binary_normalize prec emax
                      (aligned sx mx ex ez - aligned sy my ey ez) ez false)
      by reflexivity.
    assert (Hyx : float_sub (S754_finite sy my ey) (S754_finite sx mx ex)
                  = binary_normalize prec emax
                      (- (aligned sx mx ex ez - aligned sy my ey ez)) ez false).
    { unfold float_sub, SFsub. rewrite (Z.min_comm ey ex). fold ez. unfold aligned.
      f_equal. lia. }
    rewrite Hxy, Hyx.
    destruct (Z.compare_spec (aligned sx mx ex ez) (aligned sy my ey ez)) as [E|E|E].
    + exists (S754_zero false). split; [reflexivity|].
      rewrite E, Z.sub_diag. simpl. eauto.
    + destruct (binary_normalize_opp (aligned sx mx ex ez - aligned sy my ey ez) ez)
        as (R & Hn & _ & Hneg); [lia|].
      exists R. split; [exact Hn|]. apply Hneg. lia.
    + destruct (binary_normalize_opp (aligned sx mx ex ez - aligned sy my ey ez) ez)
        as (R & Hn & Hpos & _); [lia|].
      exists R. split; [exact Hn|]. apply Hpos. lia.
Qed.

(** Comparisons against a non-negative bound. *)

Lemma float_lt_negative d R :
  is_finite d = true -> nonneg d = true -> nonneg R = true ->
  float_lt d (with_sign true R) = false.
Proof.
  destruct d as [sd| | |sd md ed]; try discriminate;
    destruct R as [sr|sr| |sr mr er]; try discriminate;
    unfold float_lt, SFltb; simpl; intros _ Hd Hr.
  all: try reflexivity.
  all: destruct sd; try discriminate; reflexivity.
Qed.

Lemma float_lt_zero d s :
  is_finite d = true -> nonneg d = true -> float_lt d (S754_zero s) = false.
Proof.
  destruct d as [sd| | |sd md ed]; try discriminate;
    unfold float_lt, SFltb; simpl; intros _ Hd; [reflexivity|].
  destruct sd; [discriminate|reflexivity].
Qed.

Lemma float_abs_with_sign s R : float_abs (with_sign s R) = with_sign false R.
Proof. destruct R; reflexivity. Qed.

Lemma float_lt_compare x y : float_lt x y = match SFcompare x y with Some Lt => true | _ => false end.
Proof. reflexivity. Qed.

(** The band test of the source against the rounded differences. *)
Lemma band_float cur tgt tol :
  is_finite cur = true -> is_finite tgt = true -> is_finite tol = true ->
  valid_binary prec emax cur = true -> valid_binary prec emax tgt = true -> nonneg tol = true ->
  (float_lt tol (float_abs (float_sub cur tgt)) && float_lt cur tgt = float_lt tol (float_sub tgt cur)) /\
  (float_lt tol (float_abs (float_sub cur tgt)) && negb (float_lt cur tgt) = float_lt tol (float_sub cur tgt)) /\
  is_nan (float_sub cur tgt) = false.
Proof.
  intros Fc Ft Fd Vc Vt Hd.
  destruct (float_sub_cases cur tgt Fc Ft Vc Vt) as (R & Hn & Hcases).
  rewrite (float_lt_compare cur tgt).
  destruct (SFcompare cur tgt) as [[ | | ]|]; [| | |contradiction].
  - destruct Hcases as (s & s' & H1 & H2). rewrite H1, H2. simpl float_abs.
    rewrite !float_lt_zero by assumption. repeat split; reflexivity.
  - destruct Hcases as [H1 H2]. rewrite H1, H2, float_abs_with_sign.
    rewrite (float_lt_negative tol R) by assumption.
    rewrite andb_true_r, andb_false_r. repeat split; try reflexivity.
    destruct R; try reflexivity. discriminate.
  - destruct Hcases as [H1 H2]. rewrite H1, H2, float_abs_with_sign.
    rewrite (float_lt_negative tol R) by assumption.
    rewrite andb_true_r, andb_false_r. repeat split; try reflexivity.
    destruct R; try reflexivity. discriminate.
Qed.

(** Not greater is less or equal. *)

Lemma SFcompare_antisym x y :
  SFcompare y x = option_map CompOpp (SFcompare x y).
Proof.
  destruct x as [sx|sx| |sx mx ex], y as [sy|sy| |sy my ey]; simpl;
    try reflexivity; try (destruct sx; reflexivity); try (destruct sy; reflexivity);
    try (destruct sx, sy; reflexivity).
  destruct sx, sy; simpl; try reflexivity.
  - rewrite (Z.compare_antisym ex ey).
    destruct (ex ?= ey)%Z; simpl; try reflexivity.
    rewrite (Pos.compare_cont_antisym mx my Eq). reflexivity.
  - rewrite (Z.compare_antisym ex ey).
    destruct (ex ?= ey)%Z; simpl; try reflexivity.
    rewrite (Pos.compare_cont_antisym mx my Eq). reflexivity.
Qed.

Lemma not_lt_le x y :
  is_nan x = false -> is_nan y = false ->
  float_lt y x = false <-> float_le x y = true.
Proof.
  intros Hx Hy. unfold float_lt, float_le, SFltb, SFleb.
  rewrite (SFcompare_antisym x y).
  destruct (SFcompare x y) as [[ | | ]|] eqn:E; simpl; try (split; congruence).
  destruct x, y; simpl in *; try discriminate.
Qed.

#[local] Arguments float_sub : simpl never.
#[local] Arguments float_abs : simpl never.
#[local] Arguments float_lt : simpl never.
#[local] Arguments float_le : simpl never.
#[local] Arguments float_div : simpl never.
#[local] Arguments float_is_zero : simpl never.
#[local] Arguments float_of_int : simpl never.

(** ** The command handlers, event by event *)

Lemma heater_turn_on_run hass e :
  _async_heater_turn_on hass e = (Return tt, e, Call heater_turn_on :: sent_on hass e).
Proof.
  unfold _async_heater_turn_on, sent_on. unfold_m. simpl.
  destruct (hass !! heater_entity_id e) as [h|]; [|reflexivity].
  destruct (String.eqb (state h) STATE_ON); reflexivity.
Qed.

Lemma heater_turn_off_run hass e :
  _async_heater_turn_off hass e = (Return tt, e, Call heater_turn_off :: sent_off hass e).
Proof.
  unfold _async_heater_turn_off, sent_off. unfold_m. simpl.
  destruct (hass !! heater_entity_id e) as [h|]; [|reflexivity].
  destruct (String.eqb (state h) STATE_OFF); reflexivity.
Qed.

(** The four ways [_async_control_heating] can complete. *)
Lemma control_heating_no_reading hass e :
  _current_temperature e = None ->
  _async_control_heating hass e
  = (Return tt, e, [Call control_heating; WriteHaState e]).
Proof.
  intros H. unfold _async_control_heating. unfold_m. simpl. rewrite H. reflexivity.
Qed.

Lemma control_heating_mode_off hass e cur :
  _current_temperature e = Some cur ->
  _current_operation e = STATE_OFF ->
  _async_control_heating hass e
  = (Return tt, e,
     [Call control_heating; Call heater_turn_off] ++ sent_off hass e ++ [WriteHaState e]).
Proof.
  intros H1 H2. unfold _async_control_heating. unfold_m. simpl.
  rewrite H1, H2. simpl. rewrite heater_turn_off_run. reflexivity.
Qed.

Lemma control_heating_compare hass e cur tgt tol :
  _current_temperature e = Some cur ->
  String.eqb (_current_operation e) STATE_OFF = false ->
  _target_temperature e = Some tgt ->
  _temperature_delta e = Some tol ->
  _async_control_heating hass e
  = (Return tt, e,
     [Call control_heating]
       ++ (if float_lt tol (float_abs (float_sub cur tgt)) then
             if float_lt cur tgt then Call heater_turn_on :: sent_on hass e
             else Call heater_turn_off :: sent_off hass e
           else [])
       ++ [WriteHaState e]).
Proof.
  intros H1 H2 H3 H4. unfold _async_control_heating. unfold_m. simpl.
  rewrite H1, H2, H3, H4. simpl.
  destruct (float_lt tol (float_abs (float_sub cur tgt))); simpl; [|reflexivity].
  destruct (float_lt cur tgt); simpl.
  - rewrite heater_turn_on_run. reflexivity.
  - rewrite heater_turn_off_run. reflexivity.
Qed.

Lemma control_heating_missing_target hass e cur :
  _current_temperature e = Some cur ->
  String.eqb (_current_operation e) STATE_OFF = false ->
  _target_temperature e = None ->
  _async_control_heating hass e = (Raise TypeError, e, [Call control_heating]).
Proof.
  intros H1 H2 H3. unfold _async_control_heating. unfold_m. simpl.
  rewrite H1, H2, H3. reflexivity.
Qed.

Lemma control_heating_missing_delta hass e cur tgt :
  _current_temperature e = Some cur ->
  String.eqb (_current_operation e) STATE_OFF = false ->
  _target_temperature e = Some tgt ->
  _temperature_delta e = None ->
  _async_control_heating hass e = (Raise TypeError, e, [Call control_heating]).
Proof.
  intros H1 H2 H3 H4. unfold _async_control_heating. unfold_m. simpl.
  rewrite H1, H2, H3, H4. reflexivity.
Qed.

(** Events of the two kinds never get confused. *)
Lemma call_not_sent_on m hass e : Call m ∉ sent_on hass e.
Proof.
  unfold sent_on. destruct (hass !! heater_entity_id e) as [h|]; [|apply not_elem_of_nil].
  destruct (String.eqb (state h) STATE_ON); [apply not_elem_of_nil|].
  intros H. apply list_elem_of_singleton in H. discriminate.
Qed.

Lemma call_not_sent_off m hass e : Call m ∉ sent_off hass e.
Proof.
  unfold sent_off. destruct (hass !! heater_entity_id e) as [h|]; [|apply not_elem_of_nil].
  destruct (String.eqb (state h) STATE_OFF); [apply not_elem_of_nil|].
  intros H. apply list_elem_of_singleton in H. discriminate.
Qed.

Lemma elem_of_sent_on ev hass e :
  ev ∈ sent_on hass e <->
  ev = ServiceCall HA_DOMAIN SERVICE_TURN_ON (heater_entity_id e) /\
  exists h, hass !! heater_entity_id e = Some h /\ state h <> STATE_ON.
Proof.
  unfold sent_on. destruct (hass !! heater_entity_id e) as [h|].
  - destruct (String.eqb_spec (state h) STATE_ON) as [Heq|Hne].
    + rewrite elem_of_nil. split; [tauto|].
      intros [_ [h' [[= <-] Hne]]]. contradiction.
    + rewrite list_elem_of_singleton. split; [eauto|tauto].
  - rewrite elem_of_nil. split; [tauto|]. intros [_ [h' [[=] _]]].
Qed.

Lemma elem_of_sent_off ev hass e :
  ev ∈ sent_off hass e <->
  ev = ServiceCall HA_DOMAIN SERVICE_TURN_OFF (heater_entity_id e) /\
  exists h, hass !! heater_entity_id e = Some h /\ state h <> STATE_OFF.
Proof.
  unfold sent_off. destruct (hass !! heater_entity_id e) as [h|].
  - destruct (String.eqb_spec (state h) STATE_OFF) as [Heq|Hne].
    + rewrite elem_of_nil. split; [tauto|].
      intros [_ [h' [[= <-] Hne]]]. contradiction.
    + rewrite list_elem_of_singleton. split; [eauto|tauto].
  - rewrite elem_of_nil. split; [tauto|]. intros [_ [h' [[=] _]]].
Qed.

(** ** The band decision *)

Lemma finite_float_split x :
  finite_float x = true -> is_finite x = true /\ valid_binary prec emax x = true.
Proof. unfold finite_float. intros H. apply andb_true_iff in H. exact H. Qed.

Lemma nonneg_of_le_zero tol :
  is_finite tol = true -> float_le (float_of_int 0) tol = true -> nonneg tol = true.
Proof.
  destruct tol as [s| | |s m e]; try discriminate; intros _ H; [reflexivity|].
  destruct s; [discriminate H|reflexivity].
Qed.

Lemma is_nan_abs x : is_nan (float_abs x) = is_nan x.
Proof. destruct x; reflexivity. Qed.

Lemma is_finite_not_nan x : is_finite x = true -> is_nan x = false.
Proof. destruct x; try discriminate; reflexivity. Qed.

Section Band.

Variables cur tgt tol : pyfloat.
Hypothesis Hcur : finite_float cur = true.
Hypothesis Htgt : finite_float tgt = true.
Hypothesis Htol : finite_float tol = true.
Hypothesis Hpos : float_le (float_of_int 0) tol = true.

Lemma band_rounded :
  (float_lt tol (float_abs (float_sub cur tgt)) && float_lt cur tgt
   = float_lt tol (float_sub tgt cur)) /\
  (float_lt tol (float_abs (float_sub cur tgt)) && negb (float_lt cur tgt)
   = float_lt tol (float_sub cur tgt)) /\
  is_nan (float_sub cur tgt) = false.
Proof.
  destruct (finite_float_split _ Hcur) as [Fc Vc].
  destruct (finite_float_split _ Htgt) as [Ft Vt].
  destruct (finite_float_split _ Htol) as [Fd _].
  apply band_float; try assumption.
  apply nonneg_of_le_zero; assumption.
Qed.

Lemma band_above :
  (float_lt tol (float_abs (float_sub cur tgt)) = true /\ float_lt cur tgt = true)
  <-> float_lt tol (float_sub tgt cur) = true.
Proof.
  destruct band_rounded as (H & _ & _). rewrite <- H. symmetry. apply andb_true_iff.
Qed.

Lemma band_below :
  (float_lt tol (float_abs (float_sub cur tgt)) = true /\ float_lt cur tgt = false)
  <-> float_lt tol (float_sub cur tgt) = true.
Proof.
  destruct band_rounded as (_ & H & _). rewrite <- H, andb_true_iff, negb_true_iff.
  reflexivity.
Qed.

Lemma band_within :
  float_lt tol (float_abs (float_sub cur tgt)) = false
  <-> float_le (float_abs (float_sub cur tgt)) tol = true.
Proof.
  destruct band_rounded as (_ & _ & Hn).
  destruct (finite_float_split _ Htol) as [Fd _].
  apply not_lt_le.
  - rewrite is_nan_abs. exact Hn.
  - apply is_finite_not_nan. exact Fd.
Qed.

End Band.

Lemma decision_turn_on hass e cur tgt tol :
  Call heater_turn_on ∈ decision_events hass e cur tgt tol
  <-> float_lt tol (float_abs (float_sub cur tgt)) = true /\ float_lt cur tgt = true.
Proof.
  unfold decision_events.
  destruct (float_lt tol (float_abs (float_sub cur tgt))), (float_lt cur tgt);
    rewrite ?elem_of_cons, ?elem_of_nil; split; try tauto;
    try (intros [? ?]; discriminate).
  intros [[=]|H]. exfalso. exact (call_not_sent_off _ _ _ H).
Qed.

Lemma decision_turn_off hass e cur tgt tol :
  Call heater_turn_off ∈ decision_events hass e cur tgt tol
  <-> float_lt tol (float_abs (float_sub cur tgt)) = true /\ float_lt cur tgt = false.
Proof.
  unfold decision_events.
  destruct (float_lt tol (float_abs (float_sub cur tgt))), (float_lt cur tgt);
    rewrite ?elem_of_cons, ?elem_of_nil; split; try tauto;
    try (intros [? ?]; discriminate).
  intros [[=]|H]. exfalso. exact (call_not_sent_on _ _ _ H).
Qed.

Lemma decision_service_on hass e cur tgt tol :
  ServiceCall HA_DOMAIN SERVICE_TURN_ON (heater_entity_id e)
    ∈ decision_events hass e cur tgt tol
  <-> (float_lt tol (float_abs (float_sub cur tgt)) = true /\ float_lt cur tgt = true) /\
      exists h, hass !! heater_entity_id e = Some h /\ state h <> STATE_ON.
Proof.
  unfold decision_events.
  destruct (float_lt tol (float_abs (float_sub cur tgt))), (float_lt cur tgt);
    rewrite ?elem_of_cons, ?elem_of_nil, ?elem_of_sent_on, ?elem_of_sent_off;
    split; try tauto; try (intros [[? ?] ?]; discriminate).
  - intros [[=]|[_ H]]. tauto.
  - intros [[=]|[[=] _]].
Qed.

Lemma decision_service_off hass e cur tgt tol :
  ServiceCall HA_DOMAIN SERVICE_TURN_OFF (heater_entity_id e)
    ∈ decision_events hass e cur tgt tol
  <-> (float_lt tol (float_abs (float_sub cur tgt)) = true /\ float_lt cur tgt = false) /\
      exists h, hass !! heater_entity_id e = Some h /\ state h <> STATE_OFF.
Proof.
  unfold decision_events.
  destruct (float_lt tol (float_abs (float_sub cur tgt))), (float_lt cur tgt);
    rewrite ?elem_of_cons, ?elem_of_nil, ?elem_of_sent_on, ?elem_of_sent_off;
    split; try tauto; try (intros [[? ?] ?]; discriminate).
  - intros [[=]|[[=] _]].
  - intros [[=]|[_ H]]. tauto.
Qed.

(** Membership in the trace of a completed comparison, for the events that
    are neither the entry nor the publication. *)
Lemma elem_of_framed ev (mid : list Event) e :
  ev <> Call control_heating -> (forall e', ev <> WriteHaState e') ->
  ev ∈ [Call control_heating] ++ mid ++ [WriteHaState e] <-> ev ∈ mid.
Proof.
  intros H1 H2. rewrite !elem_of_app, !list_elem_of_singleton.
  specialize (H2 e). tauto.
Qed.

(** C1, as amended.  With mode ON, a finite reading [cur], a finite target
    [tgt] and a finite tolerance [tol >= 0], the control re-evaluation
    ends with its publication call, made on the attributes it was entered
    with, and decides on the differences as binary64 subtraction rounds
    them (to nearest, ties to even):
    - commands ON (enters [_async_heater_turn_on]) iff [tgt - cur > tol];
    - commands OFF (enters [_async_heater_turn_off]) iff [cur - tgt > tol];
    - commands nothing iff [|cur - tgt| <= tol].
    What reaches the host is then up to the command handler: a [turn_on]
    (resp. [turn_off]) service call is sent iff the decision is ON (resp.
    OFF) and the heater has a reported state other than the commanded one. *)
Theorem control_heating_band (hass : gmap string State) e cur tgt tol :
  _current_operation e = STATE_ON ->
  _current_temperature e = Some cur ->
  _target_temperature e = Some tgt ->
  _temperature_delta e = Some tol ->
  finite_float cur = true ->
  finite_float tgt = true ->
  finite_float tol = true ->
  float_le (float_of_int 0) tol = true ->
  let r := _async_control_heating hass e in
  last (trace r) = Some (WriteHaState e) /\
  (Call heater_turn_on ∈ trace r <-> float_lt tol (float_sub tgt cur) = true) /\
  (Call heater_turn_off ∈ trace r <-> float_lt tol (float_sub cur tgt) = true) /\
  (((Call heater_turn_on ∉ trace r) /\ (Call heater_turn_off ∉ trace r))
   <-> float_le (float_abs (float_sub cur tgt)) tol = true) /\
  (ServiceCall HA_DOMAIN SERVICE_TURN_ON (heater_entity_id e) ∈ trace r
   <-> float_lt tol (float_sub tgt cur) = true /\
       exists h, hass !! heater_entity_id e = Some h /\ state h <> STATE_ON) /\
  (ServiceCall HA_DOMAIN SERVICE_TURN_OFF (heater_entity_id e) ∈ trace r
   <-> float_lt tol (float_sub cur tgt) = true /\
       exists h, hass !! heater_entity_id e = Some h /\ state h <> STATE_OFF).
Proof.
  intros Hmode Hcur Htgt Htol Fc Ft Fd Hpos r. subst r.
  rewrite (control_heating_compare hass e cur tgt tol) by
    (try assumption; rewrite Hmode; reflexivity).
  fold (decision_events hass e cur tgt tol).
  unfold outcome, final, trace. cbn [fst snd].
  split; [rewrite app_assoc; apply last_snoc|].
  rewrite !elem_of_framed by (intros; discriminate).
  rewrite decision_turn_on, decision_turn_off,
    decision_service_on, decision_service_off.
  rewrite (band_above cur tgt tol Fc Ft Fd Hpos),
    (band_below cur tgt tol Fc Ft Fd Hpos).
  rewrite <- (band_within cur tgt tol Fc Ft Fd Hpos).
  pose proof (band_above cur tgt tol Fc Ft Fd Hpos) as Ha.
  pose proof (band_below cur tgt tol Fc Ft Fd Hpos) as Hb.
  split; [tauto|]. split; [tauto|]. split; [|split; tauto].
  split.
  - intros [Hon Hoff].
    destruct (float_lt tol (float_abs (float_sub cur tgt))) eqn:E1; [|reflexivity].
    destruct (float_lt cur tgt) eqn:E2.
    + exfalso. apply Hon. apply Ha. auto.
    + exfalso. apply Hoff. apply Hb. auto.
  - intros Hin. split; intros H.
    + apply Ha in H as [H _]. congruence.
    + apply Hb in H as [H _]. congruence.
Qed.

(** The scenarios of the band: target 120, tolerance 2, readings 115, 121
    and 123, against a heater that reports the opposite state. *)
Example band_scenario_115 :
  trace (_async_control_heating (demo_hass STATE_OFF) (demo_reading 115))
  = [Call control_heating; Call heater_turn_on;
     ServiceCall HA_DOMAIN SERVICE_TURN_ON "switch.boiler";
     WriteHaState (demo_reading 115)].
Proof. vm_compute. reflexivity. Qed.

Example band_scenario_121 :
  trace (_async_control_heating (demo_hass STATE_OFF) (demo_reading 121))
  = [Call control_heating; WriteHaState (demo_reading 121)].
Proof. vm_compute. reflexivity. Qed.

Example band_scenario_123 :
  trace (_async_control_heating (demo_hass STATE_ON) (demo_reading 123))
  = [Call control_heating; Call heater_turn_off;
     ServiceCall HA_DOMAIN SERVICE_TURN_OFF "switch.boiler";
     WriteHaState (demo_reading 123)].
Proof. vm_compute. reflexivity. Qed.

Lemma control_heating_band_witness :
  last (trace (_async_control_heating (demo_hass STATE_OFF) (demo_reading 115)))
  = Some (WriteHaState (demo_reading 115)) /\
  (Call heater_turn_on
     ∈ trace (_async_control_heating (demo_hass STATE_OFF) (demo_reading 115))
   <-> float_lt (float_of_int 2)
         (float_sub (float_of_int 120) (float_of_int 115)) = true) /\
  (Call heater_turn_off
     ∈ trace (_async_control_heating (demo_hass STATE_OFF) (demo_reading 115))
   <-> float_lt (float_of_int 2)
         (float_sub (float_of_int 115) (float_of_int 120)) = true).
Proof.
  destruct (control_heating_band (demo_hass STATE_OFF) (demo_reading 115)
              (float_of_int 115) (float_of_int 120) (float_of_int 2))
    as (H1 & H2 & H3 & _);
    [reflexivity | reflexivity | reflexivity | reflexivity
     | reflexivity | reflexivity | reflexivity | reflexivity |].
  exact (conj H1 (conj H2 H3)).
Defined.

(** C1 as stated fails, at a tie of the rounding.  With the doubles nearest
    to 0.3 (reading), 1.0 (target) and 0.7 (tolerance), the exact difference
    target - reading exceeds the tolerance, but the subtraction rounds it to
    the tolerance itself and nothing is commanded. *)
Lemma control_heating_exact_band_counterexample :
  demo_tie_reading = S754_finite false 5404319552844595 (-54) /\
  demo_tie_target = S754_finite false 4503599627370496 (-52) /\
  demo_tie_tolerance = S754_finite false 6305039478318694 (-53) /\
  _current_operation demo_tie = STATE_ON /\
  _current_temperature demo_tie = Some demo_tie_reading /\
  _target_temperature demo_tie = Some demo_tie_target /\
  _temperature_delta demo_tie = Some demo_tie_tolerance /\
  (exact_value demo_tie_target - exact_value demo_tie_reading
   > exact_value demo_tie_tolerance)%Q /\
  _async_control_heating (demo_hass STATE_OFF) demo_tie
  = (Return tt, demo_tie, [Call control_heating; WriteHaState demo_tie]) /\
  (Call heater_turn_on ∉ trace (_async_control_heating (demo_hass STATE_OFF) demo_tie)).
Proof.
  assert (E : _async_control_heating (demo_hass STATE_OFF) demo_tie
              = (Return tt, demo_tie, [Call control_heating; WriteHaState demo_tie]))
    by (vm_compute; reflexivity).
  repeat (split; [vm_compute; reflexivity|]).
  rewrite E. unfold trace. cbn [snd]. rewrite !elem_of_cons, elem_of_nil.
  intros [[=]|[[=]|[]]].
Qed.

(** The sign condition on the tolerance is needed: with tolerance -1 and the
    reading on the target, [tgt - cur > tol] holds and OFF is commanded. *)
Remark band_negative_tolerance :
  trace (_async_control_heating (demo_hass STATE_ON)
           (set_current_temperature (Some (float_of_int 120))
              (__init__ "boiler" "switch.boiler" "sensor.boiler"
                 (Some (float_of_int 120)) (Some (float_of_int (-1)))
                 None None TEMP_FAHRENHEIT)))
  = [Call control_heating; Call heater_turn_off;
     ServiceCall HA_DOMAIN SERVICE_TURN_OFF "switch.boiler";
     WriteHaState
       (set_current_temperature (Some (float_of_int 120))
          (__init__ "boiler" "switch.boiler" "sensor.boiler"
             (Some (float_of_int 120)) (Some (float_of_int (-1)))
             None None TEMP_FAHRENHEIT))].
Proof. vm_compute. reflexivity. Qed.

(** ** Mode OFF and the unset reading *)

(** C8, as amended.  With mode OFF the control re-evaluation completes
    without touching the attributes and never commands ON; it commands OFF
    exactly when a current temperature is set, whatever the temperatures,
    the target and the tolerance are (set or not).  Without a current
    temperature it commands nothing. *)
Theorem control_heating_mode_off_decision (hass : gmap string State) e :
  _current_operation e = STATE_OFF ->
  outcome (_async_control_heating hass e) = Return tt /\
  final (_async_control_heating hass e) = e /\
  (Call heater_turn_on ∉ trace (_async_control_heating hass e)) /\
  (Call heater_turn_off ∈ trace (_async_control_heating hass e)
   <-> _current_temperature e <> None) /\
  (ServiceCall HA_DOMAIN SERVICE_TURN_OFF (heater_entity_id e)
     ∈ trace (_async_control_heating hass e)
   <-> _current_temperature e <> None /\
       exists h, hass !! heater_entity_id e = Some h /\ state h <> STATE_OFF).
Proof.
  intros Hmode. destruct (_current_temperature e) as [cur|] eqn:Hcur.
  - rewrite (control_heating_mode_off hass e cur Hcur Hmode).
    unfold outcome, final, trace. cbn [fst snd].
    change ([Call control_heating; Call heater_turn_off] ++ sent_off hass e
              ++ [WriteHaState e])
      with ([Call control_heating] ++ (Call heater_turn_off :: sent_off hass e)
              ++ [WriteHaState e]).
    rewrite !elem_of_framed by (intros; discriminate).
    rewrite !elem_of_cons.
    split; [reflexivity|]. split; [reflexivity|]. split; [|split].
    + intros [[=]|H]. exact (call_not_sent_off _ _ _ H).
    + split; [discriminate|auto].
    + rewrite elem_of_sent_off. split.
      * intros [[=]|[_ H]]. split; [discriminate|exact H].
      * intros [_ H]. right. split; [reflexivity|exact H].
  - rewrite (control_heating_no_reading hass e Hcur).
    unfold outcome, final, trace. cbn [fst snd].
    rewrite !elem_of_cons, !elem_of_nil.
    split; [reflexivity|]. split; [reflexivity|]. split; [|split].
    + intros [[=]|[[=]|[]]].
    + split; [intros [[=]|[[=]|[]]] | intros H; contradiction].
    + split; [intros [[=]|[[=]|[]]] | intros [H _]; contradiction].
Qed.

Lemma control_heating_mode_off_decision_witness :
  Call heater_turn_off
    ∈ trace (_async_control_heating (demo_hass STATE_ON)
               (set_current_temperature (Some (float_of_int 115)) demo_off_no_reading)).
Proof.
  destruct (control_heating_mode_off_decision (demo_hass STATE_ON)
              (set_current_temperature (Some (float_of_int 115)) demo_off_no_reading))
    as (_ & _ & _ & H & _); [reflexivity|].
  apply H. discriminate.
Defined.

(** C8 as stated fails: mode OFF, no current temperature, heater reported
    ON.  The re-evaluation neither enters [_async_heater_turn_off] nor sends
    anything; it only publishes. *)
Lemma control_heating_mode_off_unset_counterexample :
  _current_operation demo_off_no_reading = STATE_OFF /\
  _async_control_heating (demo_hass STATE_ON) demo_off_no_reading
  = (Return tt, demo_off_no_reading,
     [Call control_heating; WriteHaState demo_off_no_reading]) /\
  Call heater_turn_off
    ∉ trace (_async_control_heating (demo_hass STATE_ON) demo_off_no_reading).
Proof.
  assert (E : _async_control_heating (demo_hass STATE_ON) demo_off_no_reading
              = (Return tt, demo_off_no_reading,
                 [Call control_heating; WriteHaState demo_off_no_reading]))
    by (vm_compute; reflexivity).
  split; [reflexivity|]. split; [exact E|].
  rewrite E. unfold trace. cbn [snd]. rewrite !elem_of_cons, elem_of_nil.
  intros [[=]|[[=]|[]]].
Qed.

(** ** The unset target *)

(** C3 (the code departs from it).  With mode ON, a current temperature of
    115 and no target, the control re-evaluation raises [TypeError] at the
    subtraction, before any command and before the publication; so does a
    [async_set_temperature] without a temperature argument on an entity
    whose target was set, and [async_set_operation_mode]. *)
Theorem control_heating_unset_target_raises :
  _async_control_heating (demo_hass STATE_OFF) demo_no_target
  = (Raise TypeError, demo_no_target, [Call control_heating]) /\
  async_set_temperature (demo_hass STATE_OFF) ∅ (demo_reading 115)
  = (Raise TypeError, demo_no_target, [Call control_heating]) /\
  async_set_operation_mode (demo_hass STATE_OFF) STATE_ON demo_no_target
  = (Raise TypeError, demo_no_target, [Call control_heating]).
Proof. repeat split; vm_compute; reflexivity. Qed.

(** ** The command handlers *)

Lemma commandActuator_run c hass e :
  commandActuator c hass e = (Return tt, e, Call (command_method c) :: sent c hass e).
Proof.
  destruct c; [apply heater_turn_on_run | apply heater_turn_off_run].
Qed.

Lemma sent_cases c hass e :
  sent c hass e
  = match hass !! heater_entity_id e with
    | None => []
    | Some heater =>
        if String.eqb (state heater) (desired_state c) then []
        else [ServiceCall HA_DOMAIN (command_service c) (heater_entity_id e)]
    end.
Proof. destruct c; reflexivity. Qed.

Lemma service_calls_sent c hass e : service_calls (sent c hass e) = sent c hass e.
Proof.
  rewrite sent_cases. destruct (hass !! heater_entity_id e) as [h|]; [|reflexivity].
  destruct (String.eqb (state h) (desired_state c)); reflexivity.
Qed.

Lemma service_calls_app t1 t2 :
  service_calls (t1 ++ t2) = service_calls t1 ++ service_calls t2.
Proof. apply List.filter_app. Qed.

Lemma sent_length c hass e : (length (sent c hass e) <= 1)%nat.
Proof.
  rewrite sent_cases. destruct (hass !! heater_entity_id e) as [h|]; simpl; [|lia].
  destruct (String.eqb (state h) (desired_state c)); simpl; lia.
Qed.

Lemma twice_run c hass1 hass2 e :
  (commandActuator c hass1;; commandActuator c hass2) e
  = (Return tt, e,
     (Call (command_method c) :: sent c hass1 e)
       ++ Call (command_method c) :: sent c hass2 e).
Proof.
  unfold mbind, M_bind, bind. rewrite !commandActuator_run. reflexivity.
Qed.

(** The failsafe path of [_async_sensor_changed], event by event. *)
Lemma sensor_changed_failsafe_run (str_to_float : string -> option pyfloat)
    (hass : gmap string State) new_state e :
  no_valid_state new_state = true ->
  _async_sensor_changed str_to_float hass new_state e
  = (Return tt, set_current_temperature None e,
     [Call sensor_changed; Warning (heater_entity_id e); Call heater_turn_off]
       ++ sent_off hass e
       ++ [Call control_heating; WriteHaState (set_current_temperature None e)]).
Proof.
  intros Hinv.
  assert (Hf : failsafe hass e
               = (Return tt, set_current_temperature None e,
                  [Warning (heater_entity_id e); Call heater_turn_off]
                    ++ sent_off hass e)).
  { unfold failsafe. unfold_m. simpl. rewrite heater_turn_off_run.
    simpl. rewrite app_nil_r. reflexivity. }
  unfold _async_sensor_changed. unfold_m. simpl.
  destruct new_state as [st|]; simpl in Hinv; [rewrite Hinv|]; rewrite Hf;
    rewrite (control_heating_no_reading hass (set_current_temperature None e) eq_refl);
    simpl; reflexivity.
Qed.

(** C10. When the host has no state object for the heater, both command
    handlers return having sent nothing, and the failsafe of
    [_async_sensor_changed] (unavailable, unknown or missing sensor state)
    completes without a single service call. *)
Theorem no_heater_state_no_command (str_to_float : string -> option pyfloat)
    (hass : gmap string State) e new_state :
  hass !! heater_entity_id e = None ->
  no_valid_state new_state = true ->
  _async_heater_turn_on hass e = (Return tt, e, [Call heater_turn_on]) /\
  _async_heater_turn_off hass e = (Return tt, e, [Call heater_turn_off]) /\
  outcome (_async_sensor_changed str_to_float hass new_state e) = Return tt /\
  service_calls (trace (_async_sensor_changed str_to_float hass new_state e)) = [].
Proof.
  intros Hnone Hinv.
  assert (Hoff : sent_off hass e = []) by (unfold sent_off; rewrite Hnone; reflexivity).
  split; [|split; [|split]].
  - rewrite heater_turn_on_run. unfold sent_on. rewrite Hnone. reflexivity.
  - rewrite heater_turn_off_run, Hoff. reflexivity.
  - rewrite sensor_changed_failsafe_run by assumption. reflexivity.
  - rewrite sensor_changed_failsafe_run by assumption.
    unfold trace. cbn [snd]. rewrite Hoff. reflexivity.
Qed.

Lemma no_heater_state_no_command_witness :
  _async_heater_turn_on ∅ (demo_reading 123)
  = (Return tt, demo_reading 123, [Call heater_turn_on]) /\
  _async_heater_turn_off ∅ (demo_reading 123)
  = (Return tt, demo_reading 123, [Call heater_turn_off]) /\
  service_calls
    (trace (_async_sensor_changed demo_float ∅
              (Some (mkState STATE_UNKNOWN ∅)) (demo_reading 123))) = [].
Proof.
  destruct (no_heater_state_no_command demo_float ∅ (demo_reading 123)
              (Some (mkState STATE_UNKNOWN ∅)))
    as (H1 & H2 & _ & H3); [reflexivity | reflexivity |].
  exact (conj H1 (conj H2 H3)).
Defined.

(** C4, as amended.  A command handler reads the heater's reported state
    and sends nothing when it equals the commanded state (the host [hass2]
    below); when it differs, it sends exactly the one service call.  Two
    calls in a row send at most one service call when the second finds the
    commanded state reported; against an unchanged report the second call
    repeats what the first did. *)
Theorem command_guard_idempotent (c : Command)
    (hass1 hass2 : gmap string State) e h2 :
  hass2 !! heater_entity_id e = Some h2 ->
  state h2 = desired_state c ->
  commandActuator c hass2 e = (Return tt, e, [Call (command_method c)]) /\
  (forall h1, hass1 !! heater_entity_id e = Some h1 ->
              state h1 <> desired_state c ->
              service_calls (trace (commandActuator c hass1 e))
              = [ServiceCall HA_DOMAIN (command_service c) (heater_entity_id e)]) /\
  service_calls (trace ((commandActuator c hass1;; commandActuator c hass2) e))
  = service_calls (trace (commandActuator c hass1 e)) /\
  (length (service_calls
             (trace ((commandActuator c hass1;; commandActuator c hass2) e)))
   <= 1)%nat /\
  service_calls (trace ((commandActuator c hass1;; commandActuator c hass1) e))
  = service_calls (trace (commandActuator c hass1 e))
      ++ service_calls (trace (commandActuator c hass1 e)).
Proof.
  intros Hh2 Hst.
  assert (H2 : sent c hass2 e = []).
  { rewrite sent_cases, Hh2, Hst, String.eqb_refl. reflexivity. }
  assert (Hsc : forall hass, service_calls (trace (commandActuator c hass e))
                             = sent c hass e).
  { intros hass. rewrite commandActuator_run. unfold trace. cbn [snd].
    change (service_calls (sent c hass e) = sent c hass e).
    apply service_calls_sent. }
  assert (Htw : forall hass hass',
             service_calls (trace ((commandActuator c hass;; commandActuator c hass') e))
             = sent c hass e ++ sent c hass' e).
  { intros hass hass'. rewrite twice_run. unfold trace. cbn [snd].
    rewrite service_calls_app.
    change (service_calls (sent c hass e) ++ service_calls (sent c hass' e)
            = sent c hass e ++ sent c hass' e).
    rewrite !service_calls_sent. reflexivity. }
  split; [|split; [|split; [|split]]].
  - rewrite commandActuator_run, H2. reflexivity.
  - intros h1 Hh1 Hne. rewrite Hsc, sent_cases, Hh1.
    apply String.eqb_neq in Hne. rewrite Hne. reflexivity.
  - rewrite Htw, Hsc, H2, app_nil_r. reflexivity.
  - rewrite Htw, H2, app_nil_r. apply sent_length.
  - rewrite Htw, Hsc. reflexivity.
Qed.

Lemma command_guard_idempotent_witness :
  service_calls
    (trace ((commandActuator TurnOn (demo_hass STATE_OFF);;
             commandActuator TurnOn (demo_hass STATE_ON)) (demo_reading 115)))
  = [ServiceCall HA_DOMAIN SERVICE_TURN_ON "switch.boiler"].
Proof.
  destruct (command_guard_idempotent TurnOn (demo_hass STATE_OFF)
              (demo_hass STATE_ON) (demo_reading 115) (mkState STATE_ON ∅))
    as (_ & _ & H & _); [reflexivity | reflexivity |].
  rewrite H. reflexivity.
Defined.

(** C4 as stated fails: the heater reports "off" and goes on reporting it;
    two turn-on calls in a row each send the service call, and likewise two
    turn-off calls against a heater that keeps reporting "on". *)
Lemma repeated_command_counterexample :
  service_calls
    (trace ((_async_heater_turn_on (demo_hass STATE_OFF);;
             _async_heater_turn_on (demo_hass STATE_OFF)) (demo_reading 115)))
  = [ServiceCall HA_DOMAIN SERVICE_TURN_ON "switch.boiler";
     ServiceCall HA_DOMAIN SERVICE_TURN_ON "switch.boiler"] /\
  service_calls
    (trace ((_async_heater_turn_off (demo_hass STATE_ON);;
             _async_heater_turn_off (demo_hass STATE_ON)) (demo_reading 123)))
  = [ServiceCall HA_DOMAIN SERVICE_TURN_OFF "switch.boiler";
     ServiceCall HA_DOMAIN SERVICE_TURN_OFF "switch.boiler"] /\
  ~ (length
       (service_calls
          (trace ((_async_heater_turn_on (demo_hass STATE_OFF);;
                   _async_heater_turn_on (demo_hass STATE_OFF)) (demo_reading 115))))
     <= 1)%nat.
Proof.
  split; [vm_compute; reflexivity|]. split; [vm_compute; reflexivity|].
  vm_compute. lia.
Qed.

(** ** The heater switch callback *)

Lemma switch_changed_run new_state e :
  _async_switch_changed new_state e
  = let e' :=
      match new_state with
      | None => set_attr_available false e
      | Some st =>
          if is_marker (state st) then set_attr_available false e
          else if String.eqb (state st) STATE_ON
                  && String.eqb (_current_operation e) STATE_OFF
          then set_current_operation STATE_ON (set_attr_available true e)
          else if String.eqb (state st) STATE_OFF
                  && String.eqb (_current_operation e) STATE_ON
          then set_current_operation STATE_OFF (set_attr_available true e)
          else set_attr_available true e
      end in
    (Return tt, e', [Call switch_changed; WriteHaState e']).
Proof.
  unfold _async_switch_changed, async_write_ha_state. unfold_m. simpl.
  destruct new_state as [st|]; [|reflexivity].
  destruct (is_marker (state st)); [reflexivity|]. simpl.
  destruct (String.eqb (state st) STATE_ON && String.eqb (_current_operation e) STATE_OFF);
    [reflexivity|].
  destruct (String.eqb (state st) STATE_OFF && String.eqb (_current_operation e) STATE_ON);
    reflexivity.
Qed.

(** C5. The switch callback always completes, with the entry and one
    publication of the resulting attributes as its whole trace: no control
    re-evaluation, no command, no service call.  A missing, unavailable or
    unknown state only clears [_attr_available]; any other state sets it,
    and turns mode OFF into ON when the switch reports ON, mode ON into OFF
    when the switch reports OFF, and otherwise leaves the mode. *)
Theorem switch_changed_resync new_state e :
  outcome (_async_switch_changed new_state e) = Return tt /\
  trace (_async_switch_changed new_state e)
  = [Call switch_changed; WriteHaState (final (_async_switch_changed new_state e))] /\
  (Call control_heating ∉ trace (_async_switch_changed new_state e)) /\
  (Call heater_turn_on ∉ trace (_async_switch_changed new_state e)) /\
  (Call heater_turn_off ∉ trace (_async_switch_changed new_state e)) /\
  service_calls (trace (_async_switch_changed new_state e)) = [] /\
  (no_valid_state new_state = true ->
   final (_async_switch_changed new_state e) = set_attr_available false e /\
   _attr_available (final (_async_switch_changed new_state e)) = false /\
   _current_operation (final (_async_switch_changed new_state e))
   = _current_operation e) /\
  (forall st, new_state = Some st -> is_marker (state st) = false ->
   _attr_available (final (_async_switch_changed new_state e)) = true /\
   (state st = STATE_ON -> _current_operation e = STATE_OFF ->
    _current_operation (final (_async_switch_changed new_state e)) = STATE_ON) /\
   (state st = STATE_OFF -> _current_operation e = STATE_ON ->
    _current_operation (final (_async_switch_changed new_state e)) = STATE_OFF) /\
   (state st = _current_operation e ->
    _current_operation (final (_async_switch_changed new_state e))
    = _current_operation e) /\
   final (_async_switch_changed new_state e)
   = set_current_operation
       (_current_operation (final (_async_switch_changed new_state e)))
       (set_attr_available true e)).
Proof.
  rewrite switch_changed_run. unfold outcome, final, trace. cbn [fst snd].
  split; [reflexivity|]. split; [reflexivity|].
  split; [rewrite !elem_of_cons, elem_of_nil; intros [[=]|[[=]|[]]]|].
  split; [rewrite !elem_of_cons, elem_of_nil; intros [[=]|[[=]|[]]]|].
  split; [rewrite !elem_of_cons, elem_of_nil; intros [[=]|[[=]|[]]]|].
  split; [reflexivity|].
  split.
  - intros Hinv. destruct new_state as [st|]; simpl in Hinv;
      [rewrite Hinv|]; repeat split; reflexivity.
  - intros st -> Hvalid. rewrite Hvalid.
    destruct (String.eqb_spec (state st) STATE_ON) as [Hon|Hon];
      destruct (String.eqb_spec (_current_operation e) STATE_OFF) as [Hoff|Hoff];
      destruct (String.eqb_spec (state st) STATE_OFF) as [Hsoff|Hsoff];
      destruct (String.eqb_spec (_current_operation e) STATE_ON) as [Hmon|Hmon];
      cbn [andb set_current_operation set_attr_available _attr_available
             _current_operation];
      repeat split; intros; try congruence; try reflexivity.
    all: try (rewrite Hon in Hsoff; discriminate Hsoff).
    all: destruct e; reflexivity.
Qed.

Lemma switch_changed_resync_witness :
  _current_operation
    (final (_async_switch_changed (Some (mkState STATE_OFF ∅)) (demo_reading 121)))
  = STATE_OFF /\
  _attr_available
    (final (_async_switch_changed (Some (mkState STATE_UNKNOWN ∅)) (demo_reading 121)))
  = false.
Proof.
  destruct (switch_changed_resync (Some (mkState STATE_OFF ∅)) (demo_reading 121))
    as (_ & _ & _ & _ & _ & _ & _ & H).
  destruct (H (mkState STATE_OFF ∅) eq_refl eq_refl) as (_ & _ & Hoff & _).
  destruct (switch_changed_resync (Some (mkState STATE_UNKNOWN ∅)) (demo_reading 121))
    as (_ & _ & _ & _ & _ & _ & H' & _).
  destruct (H' eq_refl) as (_ & Hav & _).
  split; [apply Hoff; reflexivity | exact Hav].
Defined.

(** ** Attaching the entity *)

Lemma py_float_run str_to_float v e :
  py_float str_to_float v e
  = match float_value str_to_float v with
    | Some q => (Return q, e, [])
    | None => (Raise (match v with VNone => TypeError | _ => ValueError end), e, [])
    end.
Proof.
  destruct v as [|q|s]; simpl; try reflexivity.
  destruct (str_to_float s); reflexivity.
Qed.

(** Case analysis on an innermost scrutinee of the goal. *)
Ltac case_step :=
  match goal with
  | |- context [match ?x with _ => _ end] =>
      lazymatch x with
      | context [match _ with _ => _ end] => fail
      | _ => first [ is_var x; destruct x | destruct x eqn:? ]
      end
  end.

Lemma added_to_hass_quiet str_to_float hass last_state e :
  forallb quiet (trace (async_added_to_hass str_to_float hass last_state e)) = true.
Proof.
  unfold async_added_to_hass, async_write_ha_state, py_float, attr_get.
  unfold_m. simpl.
  repeat (case_step; simpl); reflexivity.
Qed.

Lemma quiet_no_call (t : list Event) m : forallb quiet t = true -> Call m ∉ t.
Proof.
  intros H Hin. apply list_elem_of_In in Hin.
  rewrite forallb_forall in H. specialize (H _ Hin). discriminate.
Qed.

Lemma quiet_no_service_call (t : list Event) :
  forallb quiet t = true -> service_calls t = [].
Proof.
  induction t as [|ev t IH]; [reflexivity|]. simpl.
  intros H. apply andb_true_iff in H as [Hev Ht].
  destruct ev; try discriminate; simpl; auto.
Qed.

(** C7. [async_added_to_hass] never enters a command handler or the control
    re-evaluation and never calls a service, whatever is restored and
    whatever the host reports, also when it raises.  When the restored
    temperature (if any) and the live sensor state (if valid) are numeric, it
    completes: the target is the restored temperature if there is one, the
    mode is the restored state if there is a snapshot, the current
    temperature is the live reading if the sensor state is valid, the
    availability is set if the live heater state is valid; attributes not
    written keep their value (on the freshly constructed entity the host
    attaches: no current temperature, not available), and the publication of
    the result is the last event. *)
Theorem added_to_hass_restores (str_to_float : string -> option pyfloat)
    (hass : gmap string State) (last_state : option State) e :
  service_calls (trace (async_added_to_hass str_to_float hass last_state e)) = [] /\
  (forall m, Call m ∉ trace (async_added_to_hass str_to_float hass last_state e)) /\
  ((restored_temperature last_state <> VNone ->
    is_Some (float_value str_to_float (restored_temperature last_state))) ->
   (forall st, live_valid hass (sensor_entity_id e) = Some st ->
               is_Some (str_to_float (state st))) ->
   outcome (async_added_to_hass str_to_float hass last_state e) = Return tt /\
   trace (async_added_to_hass str_to_float hass last_state e)
   = [Track (sensor_entity_id e) sensor_changed;
      Track (heater_entity_id e) switch_changed;
      WriteHaState (final (async_added_to_hass str_to_float hass last_state e))] /\
   _target_temperature (final (async_added_to_hass str_to_float hass last_state e))
   = match float_value str_to_float (restored_temperature last_state) with
     | Some q => Some q
     | None => _target_temperature e
     end /\
   _current_operation (final (async_added_to_hass str_to_float hass last_state e))
   = match last_state with
     | Some old_state => state old_state
     | None => _current_operation e
     end /\
   _current_temperature (final (async_added_to_hass str_to_float hass last_state e))
   = match live_valid hass (sensor_entity_id e) with
     | Some st => str_to_float (state st)
     | None => _current_temperature e
     end /\
   _attr_available (final (async_added_to_hass str_to_float hass last_state e))
   = match live_valid hass (heater_entity_id e) with
     | Some _ => true
     | None => _attr_available e
     end).
Proof.
  split; [apply quiet_no_service_call, added_to_hass_quiet|].
  split; [intros m; apply quiet_no_call, added_to_hass_quiet|].
  unfold async_added_to_hass, async_write_ha_state, py_float,
    restored_temperature, live_valid, float_value.
  unfold_m.
  destruct (hass !! sensor_entity_id e) as [ts|];
    [destruct (is_marker (state ts));
     [|destruct (str_to_float (state ts)) as [reading|] eqn:Hreading]|];
    (destruct (hass !! heater_entity_id e) as [hs|];
     [destruct (is_marker (state hs))|]);
    (destruct last_state as [old_state|];
     [destruct (attr_get (attributes old_state) ATTR_TEMPERATURE) as [|q|s];
      [| |destruct (str_to_float s) as [restored|]]|]);
    simpl; intros H1 H2.
  all: try (destruct H1 as [? [=]]; [discriminate]).
  all: try (destruct (H2 _ eq_refl) as [? [=]]; congruence).
  all: try rewrite Hreading.
  all: repeat split; reflexivity.
Qed.

(** The attach scenario: snapshot with target 130 and mode OFF, no live
    states.  The publication shows target 130, mode OFF and no current
    temperature; nothing is commanded. *)
Example attach_scenario :
  async_added_to_hass demo_float ∅ (Some demo_snapshot) demo_heater
  = (Return tt,
     set_current_operation STATE_OFF
       (set_target_temperature (Some (float_of_int 130)) demo_heater),
     [Track "sensor.boiler" sensor_changed;
      Track "switch.boiler" switch_changed;
      WriteHaState
        (set_current_operation STATE_OFF
           (set_target_temperature (Some (float_of_int 130)) demo_heater))]) /\
  _current_temperature
    (final (async_added_to_hass demo_float ∅ (Some demo_snapshot) demo_heater))
  = None.
Proof. split; vm_compute; reflexivity. Qed.

Lemma added_to_hass_restores_witness :
  outcome (async_added_to_hass demo_float ∅ (Some demo_snapshot) demo_heater)
  = Return tt /\
  _target_temperature
    (final (async_added_to_hass demo_float ∅ (Some demo_snapshot) demo_heater))
  = Some (float_of_int 130).
Proof.
  destruct (added_to_hass_restores demo_float ∅ (Some demo_snapshot) demo_heater)
    as (_ & _ & H).
  destruct H as (H1 & _ & H2 & _).
  - intros _. exists (float_of_int 130). reflexivity.
  - intros st. vm_compute. discriminate.
  - split; [exact H1 | exact H2].
Defined.

(** ** The temperature limits *)

Lemma min_temp_run convert e :
  min_temp convert e
  = if truthy (_min_temp e) then (Return (_min_temp e), e, [])
    else
      match convert DEFAULT_MIN_TEMP TEMP_FAHRENHEIT (_unit_of_measurement e) with
      | Return d => (Return (Some d), set_min_temp (Some d) e, [])
      | Raise x => (Raise x, e, [])
      end.
Proof.
  unfold min_temp, host_call. unfold_m. destruct (truthy (_min_temp e)); simpl.
  - reflexivity.
  - destruct (convert DEFAULT_MIN_TEMP TEMP_FAHRENHEIT (_unit_of_measurement e));
      reflexivity.
Qed.

Lemma max_temp_run convert e :
  max_temp convert e
  = if truthy (_max_temp e) then (Return (_max_temp e), e, [])
    else
      match convert DEFAULT_MAX_TEMP TEMP_FAHRENHEIT (_unit_of_measurement e) with
      | Return d => (Return (Some d), set_max_temp (Some d) e, [])
      | Raise x => (Raise x, e, [])
      end.
Proof.
  unfold max_temp, host_call. unfold_m. destruct (truthy (_max_temp e)); simpl.
  - reflexivity.
  - destruct (convert DEFAULT_MAX_TEMP TEMP_FAHRENHEIT (_unit_of_measurement e));
      reflexivity.
Qed.

(** A configured non-zero limit is returned and nothing is written. *)
Lemma min_temp_configured convert e v :
  _min_temp e = Some v -> float_is_zero v = false ->
  min_temp convert e = (Return (Some v), e, []).
Proof.
  intros Hv Hnz. rewrite min_temp_run, Hv. simpl. rewrite Hnz. reflexivity.
Qed.

(** Without a configured limit the first access stores the converted
    default, and (the default being non-zero) the second access returns the
    stored value without computing again. *)
Lemma min_temp_default_cached convert e d :
  _min_temp e = None ->
  convert DEFAULT_MIN_TEMP TEMP_FAHRENHEIT (_unit_of_measurement e) = Return d ->
  float_is_zero d = false ->
  min_temp convert e = (Return (Some d), set_min_temp (Some d) e, []) /\
  min_temp convert (set_min_temp (Some d) e)
  = (Return (Some d), set_min_temp (Some d) e, []).
Proof.
  intros Hnone Hd Hnz. split.
  - rewrite min_temp_run, Hnone. simpl. rewrite Hd. reflexivity.
  - apply min_temp_configured; [reflexivity | exact Hnz].
Qed.

(** C6 (the code departs from it).  A limit configured as zero counts as
    not configured: the accessor calls the conversion of the platform
    default; when that returns, the default overwrites the configured zero
    and is the value returned, and when that raises, so does the accessor.
    In neither case is the configured zero the answer.  This holds for
    [min_temp] and for [max_temp]. *)
Theorem zero_limit_replaced_by_default
    (convert : pyfloat -> string -> string -> Outcome pyfloat) e :
  min_temp convert (set_min_temp (Some (float_of_int 0)) e)
  = match convert DEFAULT_MIN_TEMP TEMP_FAHRENHEIT (_unit_of_measurement e) with
    | Return d => (Return (Some d), set_min_temp (Some d) e, [])
    | Raise x => (Raise x, set_min_temp (Some (float_of_int 0)) e, [])
    end /\
  max_temp convert (set_max_temp (Some (float_of_int 0)) e)
  = match convert DEFAULT_MAX_TEMP TEMP_FAHRENHEIT (_unit_of_measurement e) with
    | Return d => (Return (Some d), set_max_temp (Some d) e, [])
    | Raise x => (Raise x, set_max_temp (Some (float_of_int 0)) e, [])
    end.
Proof.
  split.
  - rewrite min_temp_run. cbn [_min_temp set_min_temp _unit_of_measurement].
    change (truthy (Some (float_of_int 0))) with false. cbn iota.
    destruct (convert DEFAULT_MIN_TEMP TEMP_FAHRENHEIT (_unit_of_measurement e));
      reflexivity.
  - rewrite max_temp_run. cbn [_max_temp set_max_temp _unit_of_measurement].
    change (truthy (Some (float_of_int 0))) with false. cbn iota.
    destruct (convert DEFAULT_MAX_TEMP TEMP_FAHRENHEIT (_unit_of_measurement e));
      reflexivity.
Qed.

(** A Celsius entity configured with a minimum of 0 answers the double
    nearest to 43.33, which is 110 °F in °C. *)
Example min_temp_zero_celsius :
  min_temp demo_convert
    (__init__ "boiler" "switch.boiler" "sensor.boiler" (Some (float_of_int 50)) (Some (float_of_int 2))
       (Some (float_of_int 0)) (Some (float_of_int 60)) "°C")
  = (Return (Some demo_min_celsius),
     __init__ "boiler" "switch.boiler" "sensor.boiler" (Some (float_of_int 50)) (Some (float_of_int 2))
       (Some demo_min_celsius) (Some (float_of_int 60)) "°C",
     []) /\
  (4333 # 100 < exact_value demo_min_celsius < 4334 # 100)%Q.
Proof. split; [vm_compute; reflexivity|]. split; vm_compute; reflexivity. Qed.

(** Where [convert] is the converter class, calling it raises: the accessor
    raises with the configured zero (or the missing value) left in place. *)
Example min_temp_zero_converter_class :
  min_temp demo_converter_class
    (__init__ "boiler" "switch.boiler" "sensor.boiler" (Some (float_of_int 50)) (Some (float_of_int 2))
       (Some (float_of_int 0)) (Some (float_of_int 60)) "°C")
  = (Raise TypeError,
     __init__ "boiler" "switch.boiler" "sensor.boiler" (Some (float_of_int 50)) (Some (float_of_int 2))
       (Some (float_of_int 0)) (Some (float_of_int 60)) "°C",
     []).
Proof. vm_compute. reflexivity. Qed.

(** ** What a handler leaves behind *)

Lemma bind_final {A B} (m : M A) (k : A -> M B) e :
  final ((m ≫= k) e)
  = match outcome (m e) with
    | Return a => final (k a (final (m e)))
    | Raise _ => final (m e)
    end.
Proof.
  unfold mbind, M_bind, bind, final, outcome.
  destruct (m e) as [[[a|x] e1] t1]; [|reflexivity].
  cbn [fst snd]. destruct (k a e1) as [[o e2] t2]. reflexivity.
Qed.

Lemma heater_turn_on_final hass e : final (_async_heater_turn_on hass e) = e.
Proof. rewrite heater_turn_on_run. reflexivity. Qed.

Lemma heater_turn_off_final hass e : final (_async_heater_turn_off hass e) = e.
Proof. rewrite heater_turn_off_run. reflexivity. Qed.

(** The control re-evaluation writes no attribute, also when it raises. *)
Lemma control_heating_final hass e : final (_async_control_heating hass e) = e.
Proof.
  destruct (_current_temperature e) as [cur|] eqn:Hcur.
  - destruct (String.eqb (_current_operation e) STATE_OFF) eqn:Hmode.
    + apply String.eqb_eq in Hmode.
      rewrite (control_heating_mode_off hass e cur Hcur Hmode). reflexivity.
    + destruct (_target_temperature e) as [tgt|] eqn:Htgt.
      * destruct (_temperature_delta e) as [tol|] eqn:Htol.
        -- rewrite (control_heating_compare hass e cur tgt tol); auto.
        -- rewrite (control_heating_missing_delta hass e cur tgt); auto.
      * rewrite (control_heating_missing_target hass e cur); auto.
  - rewrite (control_heating_no_reading hass e Hcur). reflexivity.
Qed.

Lemma set_temperature_final hass kwargs e :
  final (async_set_temperature hass kwargs e)
  = set_target_temperature (kwargs !! ATTR_TEMPERATURE) e.
Proof.
  unfold async_set_temperature. rewrite bind_final. unfold assign at 1. simpl.
  apply control_heating_final.
Qed.

Lemma set_operation_mode_final hass m e :
  final (async_set_operation_mode hass m e) = set_current_operation m e.
Proof.
  unfold async_set_operation_mode. rewrite bind_final. unfold assign at 1. simpl.
  apply control_heating_final.
Qed.

Lemma sensor_changed_final str_to_float hass new_state e :
  final (_async_sensor_changed str_to_float hass new_state e)
  = match new_state with
    | None => set_current_temperature None e
    | Some st =>
        if is_marker (state st) then set_current_temperature None e
        else match str_to_float (state st) with
             | Some q => set_current_temperature (Some q) e
             | None => e
             end
    end.
Proof.
  destruct (no_valid_state new_state) eqn:Hinv.
  - rewrite sensor_changed_failsafe_run by assumption.
    destruct new_state as [st|]; simpl in Hinv; [rewrite Hinv|]; reflexivity.
  - destruct new_state as [st|]; [|discriminate]. simpl in Hinv.
    unfold _async_sensor_changed. rewrite Hinv.
    rewrite bind_final.
    change (outcome (emit (Call sensor_changed) e)) with (Return tt).
    cbv iota. rewrite bind_final.
    assert (Hpre :
      (t ← py_float str_to_float (VStr (state st));
       assign (set_current_temperature (Some t))) e
      = match str_to_float (state st) with
        | Some q => (Return tt, set_current_temperature (Some q) e, [])
        | None => (Raise ValueError, e, [])
        end).
    { unfold py_float. unfold_m.
      destruct (str_to_float (state st)); reflexivity. }
    change (final (emit (Call sensor_changed) e)) with e.
    rewrite Hpre. destruct (str_to_float (state st)); simpl; [|reflexivity].
    apply control_heating_final.
Qed.

Lemma min_temp_final convert e :
  final ((min_temp convert;; mret tt) e)
  = if truthy (_min_temp e) then e
    else match convert DEFAULT_MIN_TEMP TEMP_FAHRENHEIT (_unit_of_measurement e) with
         | Return d => set_min_temp (Some d) e
         | Raise _ => e
         end.
Proof.
  rewrite bind_final, min_temp_run. destruct (truthy (_min_temp e)); [reflexivity|].
  destruct (convert DEFAULT_MIN_TEMP TEMP_FAHRENHEIT (_unit_of_measurement e));
    reflexivity.
Qed.

Lemma max_temp_final convert e :
  final ((max_temp convert;; mret tt) e)
  = if truthy (_max_temp e) then e
    else match convert DEFAULT_MAX_TEMP TEMP_FAHRENHEIT (_unit_of_measurement e) with
         | Return d => set_max_temp (Some d) e
         | Raise _ => e
         end.
Proof.
  rewrite bind_final, max_temp_run. destruct (truthy (_max_temp e)); [reflexivity|].
  destruct (convert DEFAULT_MAX_TEMP TEMP_FAHRENHEIT (_unit_of_measurement e));
    reflexivity.
Qed.

(** ** Histories *)

Section Frame.

Variable convert : pyfloat -> string -> string -> Outcome pyfloat.
Variable str_to_float : string -> option pyfloat.

Lemma added_to_hass_final_cases hass last_state e :
  let e' := final (async_added_to_hass str_to_float hass last_state e) in
  sensor_entity_id e' = sensor_entity_id e /\
  (_current_temperature e' = _current_temperature e \/
   exists q, op_reading str_to_float (sensor_entity_id e) hass (AddedToHass last_state)
             = Some q /\ _current_temperature e' = Some q) /\
  (_current_operation e' = _current_operation e \/
   exists old_state, last_state = Some old_state /\
                     _current_operation e' = state old_state).
Proof.
  unfold async_added_to_hass, async_write_ha_state, py_float, op_reading,
    live_valid.
  unfold_m.
  destruct (hass !! sensor_entity_id e) as [ts|];
    [destruct (is_marker (state ts));
     [|destruct (str_to_float (state ts)) as [reading|]]|];
    (destruct (hass !! heater_entity_id e) as [hs|];
     [destruct (is_marker (state hs))|]);
    (destruct last_state as [old_state|];
     [destruct (attr_get (attributes old_state) ATTR_TEMPERATURE) as [|q|s];
      [| |destruct (str_to_float s) as [restored|]]|]);
    simpl; (split; [reflexivity|]); split; eauto.
Qed.

Lemma handle_sensor_id hass op e :
  sensor_entity_id (final (handle convert str_to_float hass op e))
  = sensor_entity_id e.
Proof.
  destruct op; simpl.
  - rewrite set_temperature_final. reflexivity.
  - rewrite set_operation_mode_final. reflexivity.
  - apply added_to_hass_final_cases.
  - rewrite sensor_changed_final. repeat (case_step; simpl); reflexivity.
  - rewrite switch_changed_run. unfold final. cbn [fst snd].
    repeat (case_step; simpl); reflexivity.
  - rewrite control_heating_final. reflexivity.
  - rewrite heater_turn_on_final. reflexivity.
  - rewrite heater_turn_off_final. reflexivity.
  - rewrite min_temp_final. repeat case_step; reflexivity.
  - rewrite max_temp_final. repeat case_step; reflexivity.
Qed.

(** After an operation the current temperature is what it was, or unset,
    or the reading the operation delivered. *)
Lemma handle_current_temperature hass op e :
  let e' := final (handle convert str_to_float hass op e) in
  _current_temperature e' = _current_temperature e \/
  _current_temperature e' = None \/
  exists q, op_reading str_to_float (sensor_entity_id e) hass op = Some q /\
            _current_temperature e' = Some q.
Proof.
  destruct op; simpl.
  - rewrite set_temperature_final. left. reflexivity.
  - rewrite set_operation_mode_final. left. reflexivity.
  - destruct (added_to_hass_final_cases hass last_state e) as (_ & [H|H] & _); auto.
  - rewrite sensor_changed_final.
    destruct new_state as [st|]; [|right; left; reflexivity].
    destruct (is_marker (state st)); [right; left; reflexivity|].
    destruct (str_to_float (state st)) as [q|]; [|left; reflexivity].
    right. right. exists q. split; reflexivity.
  - rewrite switch_changed_run. unfold final. cbn [fst snd].
    left. repeat (case_step; simpl); reflexivity.
  - rewrite control_heating_final. left. reflexivity.
  - rewrite heater_turn_on_final. left. reflexivity.
  - rewrite heater_turn_off_final. left. reflexivity.
  - rewrite min_temp_final. left. repeat case_step; reflexivity.
  - rewrite max_temp_final. left. repeat case_step; reflexivity.
Qed.

(** After an operation in range the mode is still one of the list. *)
Lemma handle_valid_mode hass op e :
  valid_mode e -> op_in_range op ->
  valid_mode (final (handle convert str_to_float hass op e)).
Proof.
  unfold valid_mode. intros Hv Hop. destruct op; simpl.
  - rewrite set_temperature_final. exact Hv.
  - rewrite set_operation_mode_final. exact Hop.
  - destruct (added_to_hass_final_cases hass last_state e)
      as (_ & _ & [H|(old & -> & H)]); rewrite H; [exact Hv | exact Hop].
  - rewrite sensor_changed_final. repeat (case_step; simpl); exact Hv.
  - rewrite switch_changed_run. unfold final. cbn [fst snd].
    repeat (case_step; simpl); try exact Hv.
    all: unfold _operation_list; rewrite !elem_of_cons; auto.
  - rewrite control_heating_final. exact Hv.
  - rewrite heater_turn_on_final. exact Hv.
  - rewrite heater_turn_off_final. exact Hv.
  - rewrite min_temp_final. repeat case_step; exact Hv.
  - rewrite max_temp_final. repeat case_step; exact Hv.
Qed.

Lemma run_sensor_id history e :
  sensor_entity_id (run convert str_to_float history e) = sensor_entity_id e.
Proof.
  revert e. induction history as [|[hass op] history IH]; intros e; simpl.
  - reflexivity.
  - rewrite IH. apply handle_sensor_id.
Qed.

(** A current temperature that is unset or fresh stays so along a history,
    fresh meaning delivered by an operation of that history. *)
Lemma run_current_temperature history : forall e seen,
  (_current_temperature e = None \/
   exists q, q ∈ seen /\ _current_temperature e = Some q) ->
  let e' := run convert str_to_float history e in
  _current_temperature e' = None \/
  exists q, q ∈ seen ++ fresh_readings str_to_float (sensor_entity_id e) history /\
            _current_temperature e' = Some q.
Proof.
  induction history as [|[hass op] history IH]; intros e seen Hstart; simpl.
  - unfold fresh_readings. simpl. rewrite app_nil_r. exact Hstart.
  - pose proof (handle_current_temperature hass op e) as Hstep. simpl in Hstep.
    pose proof (handle_sensor_id hass op e) as Hid.
    set (e1 := final (handle convert str_to_float hass op e)) in *.
    unfold fresh_readings. simpl.
    destruct (op_reading str_to_float (sensor_entity_id e) hass op) as [r|] eqn:Hr.
    + specialize (IH e1 (seen ++ [r])). simpl in IH.
      rewrite Hid in IH. rewrite <- app_assoc in IH. simpl in IH.
      apply IH.
      destruct Hstep as [H|[H|(q & Hq & H)]].
      * rewrite H. destruct Hstart as [Hs|(q & Hq & Hs)]; [left; exact Hs|].
        right. exists q. rewrite elem_of_app. auto.
      * left. exact H.
      * right. exists q. injection Hq as <-. rewrite elem_of_app, list_elem_of_singleton. auto.
    + specialize (IH e1 seen). simpl in IH. rewrite Hid in IH.
      apply IH.
      destruct Hstep as [H|[H|(q & Hq & H)]].
      * rewrite H. exact Hstart.
      * left. exact H.
      * discriminate Hq.
Qed.

Lemma run_valid_mode history : forall e,
  valid_mode e -> Forall (fun x => op_in_range x.2) history ->
  valid_mode (run convert str_to_float history e).
Proof.
  induction history as [|[hass op] history IH]; intros e Hv Hall; simpl.
  - exact Hv.
  - inversion Hall as [|x l Hop Hrest]; subst.
    apply IH; [|exact Hrest]. apply handle_valid_mode; assumption.
Qed.

End Frame.

(** ** The sensor failsafe *)

(** C2. When the sensor event carries no state, or the state "unavailable"
    or "unknown", [_async_sensor_changed] completes whatever the mode is:
    it warns, commands OFF (enters [_async_heater_turn_off], which sends the
    [turn_off] service call iff the heater has a reported state other than
    "off"), unsets the current temperature, and the re-evaluation that
    follows only publishes.  From then on, along any history of operations,
    the current temperature is unset or is a reading delivered by one of
    those later operations. *)
Theorem sensor_failsafe (convert : pyfloat -> string -> string -> Outcome pyfloat)
    (str_to_float : string -> option pyfloat) (hass : gmap string State)
    (new_state : option State) e
    (history : list (gmap string State * Op)) :
  no_valid_state new_state = true ->
  outcome (_async_sensor_changed str_to_float hass new_state e) = Return tt /\
  trace (_async_sensor_changed str_to_float hass new_state e)
  = [Call sensor_changed; Warning (heater_entity_id e); Call heater_turn_off]
      ++ sent_off hass e
      ++ [Call control_heating; WriteHaState (set_current_temperature None e)] /\
  Call heater_turn_off ∈ trace (_async_sensor_changed str_to_float hass new_state e) /\
  (ServiceCall HA_DOMAIN SERVICE_TURN_OFF (heater_entity_id e)
     ∈ trace (_async_sensor_changed str_to_float hass new_state e)
   <-> exists h, hass !! heater_entity_id e = Some h /\ state h <> STATE_OFF) /\
  final (_async_sensor_changed str_to_float hass new_state e)
  = set_current_temperature None e /\
  _current_temperature (final (_async_sensor_changed str_to_float hass new_state e))
  = None /\
  (_current_temperature
     (run convert str_to_float history
        (final (_async_sensor_changed str_to_float hass new_state e))) = None \/
   exists q,
     q ∈ fresh_readings str_to_float (sensor_entity_id e) history /\
     _current_temperature
       (run convert str_to_float history
          (final (_async_sensor_changed str_to_float hass new_state e))) = Some q).
Proof.
  intros Hinv. rewrite (sensor_changed_failsafe_run str_to_float hass new_state e Hinv).
  unfold outcome, final, trace. cbn [fst snd].
  split; [reflexivity|]. split; [reflexivity|].
  split; [rewrite !elem_of_app, !elem_of_cons; auto|].
  split.
  - rewrite !elem_of_app, !elem_of_cons, !elem_of_nil, elem_of_sent_off. split.
    + intros [[[=]|[[=]|[[=]|[]]]]|[[_ H]|[[=]|[[=]|[]]]]]. exact H.
    + intros H. right. left. split; [reflexivity|exact H].
  - split; [reflexivity|]. split; [reflexivity|].
    apply (run_current_temperature convert str_to_float history
             (set_current_temperature None e) []).
    left. reflexivity.
Qed.

Lemma sensor_failsafe_witness :
  trace (_async_sensor_changed demo_float (demo_hass STATE_ON)
           (Some (mkState STATE_UNAVAILABLE ∅)) (demo_reading 115))
  = [Call sensor_changed; Warning "switch.boiler"; Call heater_turn_off;
     ServiceCall HA_DOMAIN SERVICE_TURN_OFF "switch.boiler";
     Call control_heating;
     WriteHaState (set_current_temperature None (demo_reading 115))].
Proof.
  destruct (sensor_failsafe demo_convert demo_float (demo_hass STATE_ON)
              (Some (mkState STATE_UNAVAILABLE ∅)) (demo_reading 115) [])
    as (_ & H & _); [reflexivity|].
  rewrite H. reflexivity.
Defined.

(** The failsafe scenario: mode ON, the sensor reports "unknown"; OFF is
    sent, then a change of target re-evaluates to nothing, until the reading
    "115" arrives and ON is commanded. *)
Example failsafe_scenario :
  let e1 := final (_async_sensor_changed demo_float (demo_hass STATE_ON)
                     (Some (mkState STATE_UNKNOWN ∅)) (demo_reading 123)) in
  _current_temperature e1 = None /\
  trace (async_set_temperature (demo_hass STATE_OFF)
           {[ ATTR_TEMPERATURE := (float_of_int 125) ]} e1)
  = [Call control_heating;
     WriteHaState (set_target_temperature (Some (float_of_int 125)) e1)] /\
  service_calls
    (trace (_async_sensor_changed demo_float (demo_hass STATE_OFF)
              (Some (mkState "115" ∅)) e1))
  = [ServiceCall HA_DOMAIN SERVICE_TURN_ON "switch.boiler"].
Proof. repeat split; vm_compute; reflexivity. Qed.

(** ** The mode *)

(** C9, as amended.  The constructor sets a mode of the operation list, and
    every operation keeps the mode in the list provided the argument of
    [async_set_operation_mode] and the state restored by
    [async_added_to_hass] are themselves in the list; hence so does every
    history of such operations. *)
Theorem mode_in_operation_list (convert : pyfloat -> string -> string -> Outcome pyfloat)
    (str_to_float : string -> option pyfloat) :
  (forall name heater_id sensor_id target_temp temp_delta min_t max_t unit,
     valid_mode (__init__ name heater_id sensor_id target_temp temp_delta
                   min_t max_t unit)) /\
  (forall hass op e,
     valid_mode e -> op_in_range op ->
     valid_mode (final (handle convert str_to_float hass op e))) /\
  (forall history e,
     valid_mode e -> Forall (fun x => op_in_range x.2) history ->
     valid_mode (run convert str_to_float history e)).
Proof.
  split; [|split].
  - intros. unfold valid_mode, _operation_list. simpl.
    rewrite elem_of_cons. left. reflexivity.
  - intros hass op e. apply handle_valid_mode.
  - intros history e. apply run_valid_mode.
Qed.

Lemma mode_in_operation_list_witness :
  valid_mode
    (run demo_convert demo_float
       [(demo_hass STATE_ON, SetOperationMode STATE_OFF);
        (demo_hass STATE_ON, AddedToHass (Some demo_snapshot));
        (demo_hass STATE_ON, SwitchChanged (Some (mkState STATE_ON ∅)))]
       demo_heater).
Proof.
  destruct (mode_in_operation_list demo_convert demo_float) as (Hinit & _ & Hrun).
  apply Hrun.
  - apply Hinit.
  - repeat constructor; simpl; unfold _operation_list;
      rewrite !elem_of_cons; auto.
Defined.

(** C9 as stated fails: [async_set_operation_mode] stores any string, and
    [async_added_to_hass] restores any state string, here the state
    "unavailable" that the host records for an unavailable entity. *)
Lemma mode_outside_operation_list_counterexample :
  valid_mode demo_heater /\
  _current_operation
    (final (async_set_operation_mode (demo_hass STATE_OFF) "eco" demo_heater))
  = "eco" /\
  ~ valid_mode
      (final (async_set_operation_mode (demo_hass STATE_OFF) "eco" demo_heater)) /\
  _current_operation
    (final (async_added_to_hass demo_float ∅
              (Some (mkState STATE_UNAVAILABLE ∅)) demo_heater))
  = STATE_UNAVAILABLE /\
  ~ valid_mode
      (final (async_added_to_hass demo_float ∅
                (Some (mkState STATE_UNAVAILABLE ∅)) demo_heater)).
Proof.
  assert (E1 : _current_operation
                 (final (async_set_operation_mode (demo_hass STATE_OFF) "eco" demo_heater))
               = "eco") by (vm_compute; reflexivity).
  assert (E2 : _current_operation
                 (final (async_added_to_hass demo_float ∅
                           (Some (mkState STATE_UNAVAILABLE ∅)) demo_heater))
               = STATE_UNAVAILABLE) by (vm_compute; reflexivity).
  unfold valid_mode. rewrite E1, E2. unfold _operation_list.
  rewrite !elem_of_cons, !elem_of_nil.
  split; [left; reflexivity|].
  split; [reflexivity|].
  split; [intros [[=]|[[=]|[]]]|].
  split; [reflexivity|].
  intros [[=]|[[=]|[]]].
Qed.

(** * Further properties of the handlers *)

(** ** Traces through a sequence *)

Lemma bind_trace {A B} (m : M A) (k : A -> M B) e :
  trace ((m ≫= k) e)
  = trace (m e)
      ++ match outcome (m e) with
         | Return a => trace (k a (final (m e)))
         | Raise _ => []
         end.
Proof.
  unfold mbind, M_bind, bind, final, outcome, trace.
  destruct (m e) as [[[a|x] e1] t1]; cbn [fst snd].
  - destruct (k a e1) as [[o e2] t2]. reflexivity.
  - rewrite app_nil_r. reflexivity.
Qed.

Lemma bind_outcome {A B} (m : M A) (k : A -> M B) e :
  outcome ((m ≫= k) e)
  = match outcome (m e) with
    | Return a => outcome (k a (final (m e)))
    | Raise x => Raise x
    end.
Proof.
  unfold mbind, M_bind, bind, final, outcome.
  destruct (m e) as [[[a|x] e1] t1]; cbn [fst snd]; [|reflexivity].
  destruct (k a e1) as [[o e2] t2]. reflexivity.
Qed.

Lemma service_calls_sent_on hass e : service_calls (sent_on hass e) = sent_on hass e.
Proof. apply (service_calls_sent TurnOn). Qed.

Lemma service_calls_sent_off hass e : service_calls (sent_off hass e) = sent_off hass e.
Proof. apply (service_calls_sent TurnOff). Qed.

Lemma publications_sent_on hass e : publications (sent_on hass e) = [].
Proof.
  unfold sent_on. destruct (hass !! heater_entity_id e) as [h|]; [|reflexivity].
  destruct (String.eqb (state h) STATE_ON); reflexivity.
Qed.

Lemma publications_sent_off hass e : publications (sent_off hass e) = [].
Proof.
  unfold sent_off. destruct (hass !! heater_entity_id e) as [h|]; [|reflexivity].
  destruct (String.eqb (state h) STATE_OFF); reflexivity.
Qed.

(** The re-evaluation in one equation: it faults, or it frames the commanded
    events between its entry and the publication. *)
Lemma control_heating_result hass e :
  exists mid,
    _async_control_heating hass e
    = (if control_faults e then (Raise TypeError, e, [Call control_heating])
       else (Return tt, e, [Call control_heating] ++ mid ++ [WriteHaState e])) /\
    service_calls mid = control_sends hass e /\
    publications mid = [] /\
    (control_faults e = true -> mid = []).
Proof.
  unfold control_faults, control_sends.
  destruct (_current_temperature e) as [cur|] eqn:Hcur.
  - destruct (String.eqb (_current_operation e) STATE_OFF) eqn:Hmode.
    + exists (Call heater_turn_off :: sent_off hass e).
      apply String.eqb_eq in Hmode.
      rewrite (control_heating_mode_off hass e cur Hcur Hmode).
      cbn [negb andb]. split; [reflexivity|].
      split; [exact (service_calls_sent_off hass e)|].
      split; [exact (publications_sent_off hass e)|discriminate].
    + destruct (_target_temperature e) as [tgt|] eqn:Htgt.
      * destruct (_temperature_delta e) as [tol|] eqn:Htol.
        -- exists (decision_events hass e cur tgt tol).
           rewrite (control_heating_compare hass e cur tgt tol Hcur Hmode Htgt Htol).
           cbn [negb andb]. split; [reflexivity|].
           unfold decision_events.
           destruct (float_lt tol (float_abs (float_sub cur tgt)));
             [destruct (float_lt cur tgt)|].
           ++ split; [exact (service_calls_sent_on hass e)|].
              split; [exact (publications_sent_on hass e)|discriminate].
           ++ split; [exact (service_calls_sent_off hass e)|].
              split; [exact (publications_sent_off hass e)|discriminate].
           ++ split; [reflexivity|]. split; [reflexivity|discriminate].
        -- exists [].
           rewrite (control_heating_missing_delta hass e cur tgt Hcur Hmode Htgt Htol).
           cbn [negb andb]. repeat split; reflexivity.
      * exists [].
        rewrite (control_heating_missing_target hass e cur Hcur Hmode Htgt).
        cbn [negb andb]. repeat split; reflexivity.
  - exists []. rewrite (control_heating_no_reading hass e Hcur).
    split; [reflexivity|]. split; [reflexivity|]. split; [reflexivity|discriminate].
Qed.

Lemma control_heating_service_calls hass e :
  service_calls (trace (_async_control_heating hass e)) = control_sends hass e.
Proof.
  destruct (control_heating_result hass e) as (mid & Hrun & Hs & _ & Hf).
  rewrite Hrun. destruct (control_faults e) eqn:E.
  - rewrite <- Hs, (Hf eq_refl). reflexivity.
  - unfold trace. cbn [snd]. rewrite !service_calls_app, Hs.
    cbn. rewrite app_nil_r. reflexivity.
Qed.

(** X1. The control re-evaluation reaches its publication call
    [async_write_ha_state()] in every case but one: when a current
    temperature is set, the mode is not "off", and the target or the
    tolerance is unset.  In that case it raises [TypeError] right after its
    entry, with no command handler entered and every attribute as it was.
    In every other case the publication call is its last event and its only
    publication, and it is made on the attributes the handler was entered
    with: nothing is written on the way to it.  (What the host does inside
    that call, reading the entity's properties, comes after these events.) *)
Theorem control_heating_raises_iff (hass : gmap string State) e :
  (publications (trace (_async_control_heating hass e)) = []
   <-> control_faults e = true) /\
  (control_faults e = true ->
   _async_control_heating hass e = (Raise TypeError, e, [Call control_heating])) /\
  (control_faults e = false ->
   publications (trace (_async_control_heating hass e)) = [WriteHaState e] /\
   last (trace (_async_control_heating hass e)) = Some (WriteHaState e)).
Proof.
  destruct (control_heating_result hass e) as (mid & Hrun & _ & Hp & _).
  rewrite Hrun. destruct (control_faults e); unfold trace; cbn [fst snd].
  - split; [split; reflexivity|]. split; [reflexivity|discriminate].
  - assert (Hpub : publications ([Call control_heating] ++ mid ++ [WriteHaState e])
                   = [WriteHaState e]).
    { unfold publications in *. rewrite !List.filter_app, Hp. reflexivity. }
    split; [rewrite Hpub; split; discriminate|]. split; [discriminate|].
    intros _. split; [exact Hpub|].
    rewrite app_assoc. apply last_snoc.
Qed.

Lemma control_heating_raises_iff_witness :
  _async_control_heating (demo_hass STATE_OFF) demo_no_target
  = (Raise TypeError, demo_no_target, [Call control_heating]) /\
  last (trace (_async_control_heating (demo_hass STATE_OFF) (demo_reading 115)))
  = Some (WriteHaState (demo_reading 115)).
Proof.
  destruct (control_heating_raises_iff (demo_hass STATE_OFF) demo_no_target)
    as (_ & H1 & _).
  destruct (control_heating_raises_iff (demo_hass STATE_OFF) (demo_reading 115))
    as (_ & _ & H2).
  split; [apply H1; reflexivity | apply H2; reflexivity].
Defined.

(** ** When a service call leaves *)

Lemma elem_of_service_calls ev (t : list Event) :
  ev ∈ service_calls t <-> ev ∈ t /\ is_service_call ev = true.
Proof.
  unfold service_calls. rewrite !list_elem_of_In. apply List.filter_In.
Qed.

Lemma service_call_in_control hass e d s id :
  ServiceCall d s id ∈ trace (_async_control_heating hass e)
  <-> ServiceCall d s id ∈ control_sends hass e.
Proof.
  rewrite <- control_heating_service_calls, elem_of_service_calls.
  split; [intros H; split; [exact H|reflexivity] | intros [H _]; exact H].
Qed.

(** X2. The control re-evaluation sends the [turn_on] service call exactly
    when a current temperature, a target and a tolerance are set, the mode is
    not "off", the reading compares below the target, the distance
    [abs (cur - tgt)] as binary64 rounds it compares above the tolerance,
    and the heater has a reported state other than "on".  In particular it
    never asks for heat unless the reading is strictly below the target,
    whatever the sign of the tolerance. *)
Theorem turn_on_sent_iff (hass : gmap string State) e :
  ServiceCall HA_DOMAIN SERVICE_TURN_ON (heater_entity_id e)
    ∈ trace (_async_control_heating hass e)
  <-> exists cur tgt tol h,
        _current_temperature e = Some cur /\
        _target_temperature e = Some tgt /\
        _temperature_delta e = Some tol /\
        _current_operation e <> STATE_OFF /\
        float_lt cur tgt = true /\
        float_lt tol (float_abs (float_sub cur tgt)) = true /\
        hass !! heater_entity_id e = Some h /\ state h <> STATE_ON.
Proof.
  rewrite service_call_in_control. unfold control_sends.
  destruct (_current_temperature e) as [cur|].
  2: { rewrite elem_of_nil. split; [tauto|]. intros (c & t & d & h & [=] & _). }
  destruct (String.eqb_spec (_current_operation e) STATE_OFF) as [Hoff|Hon].
  { rewrite elem_of_sent_off. split.
    - intros [[=] _].
    - intros (c & t & d & h & _ & _ & _ & Hne & _). contradiction. }
  destruct (_target_temperature e) as [tgt|].
  2: { rewrite elem_of_nil. split; [tauto|]. intros (c & t & d & h & _ & [=] & _). }
  destruct (_temperature_delta e) as [tol|].
  2: { rewrite elem_of_nil. split; [tauto|].
       intros (c & t & d & h & _ & _ & [=] & _). }
  destruct (float_lt tol (float_abs (float_sub cur tgt))) eqn:Eband.
  - destruct (float_lt cur tgt) eqn:Elt.
    + rewrite elem_of_sent_on. split.
      * intros [_ (h & Hh & Hne)]. exists cur, tgt, tol, h. auto 10.
      * intros (c & t & d & h & [= <-] & [= <-] & [= <-] & _ & _ & _ & Hh & Hne).
        split; [reflexivity|]. exists h. auto.
    + rewrite elem_of_sent_off. split.
      * intros [[=] _].
      * intros (c & t & d & h & [= <-] & [= <-] & _ & _ & Hlt & _).
        congruence.
  - rewrite elem_of_nil. split; [tauto|].
    intros (c & t & d & h & [= <-] & [= <-] & [= <-] & _ & _ & Hb & _).
    congruence.
Qed.

Lemma turn_on_sent_iff_witness :
  ServiceCall HA_DOMAIN SERVICE_TURN_ON "switch.boiler"
    ∈ trace (_async_control_heating (demo_hass STATE_OFF) (demo_reading 115)).
Proof.
  apply (turn_on_sent_iff (demo_hass STATE_OFF) (demo_reading 115)).
  exists (float_of_int 115), (float_of_int 120), (float_of_int 2),
    (mkState STATE_OFF ∅).
  repeat split; try reflexivity; vm_compute; discriminate.
Defined.

(** X3. The control re-evaluation sends the [turn_off] service call exactly
    when a current temperature is set, the heater has a reported state other
    than "off", and either the mode is "off" or the reading does not compare
    below the target while the distance [abs (cur - tgt)] as binary64 rounds
    it compares above the tolerance. *)
Theorem turn_off_sent_iff (hass : gmap string State) e :
  ServiceCall HA_DOMAIN SERVICE_TURN_OFF (heater_entity_id e)
    ∈ trace (_async_control_heating hass e)
  <-> exists cur h,
        _current_temperature e = Some cur /\
        hass !! heater_entity_id e = Some h /\ state h <> STATE_OFF /\
        (_current_operation e = STATE_OFF \/
         exists tgt tol,
           _target_temperature e = Some tgt /\
           _temperature_delta e = Some tol /\
           float_lt cur tgt = false /\
           float_lt tol (float_abs (float_sub cur tgt)) = true).
Proof.
  rewrite service_call_in_control. unfold control_sends.
  destruct (_current_temperature e) as [cur|].
  2: { rewrite elem_of_nil. split; [tauto|]. intros (c & h & [=] & _). }
  destruct (String.eqb_spec (_current_operation e) STATE_OFF) as [Hoff|Hon].
  { rewrite elem_of_sent_off. split.
    - intros [_ (h & Hh & Hne)]. exists cur, h. auto.
    - intros (c & h & _ & Hh & Hne & _). split; [reflexivity|]. exists h. auto. }
  destruct (_target_temperature e) as [tgt|].
  2: { rewrite elem_of_nil. split; [tauto|].
       intros (c & h & _ & _ & _ & [Hm|(t & d & [=] & _)]). contradiction. }
  destruct (_temperature_delta e) as [tol|].
  2: { rewrite elem_of_nil. split; [tauto|].
       intros (c & h & _ & _ & _ & [Hm|(t & d & _ & [=] & _)]). contradiction. }
  destruct (float_lt tol (float_abs (float_sub cur tgt))) eqn:Eband.
  - destruct (float_lt cur tgt) eqn:Elt.
    + rewrite elem_of_sent_on. split.
      * intros [[=] _].
      * intros (c & h & [= <-] & _ & _ & [Hm|(t & d & [= <-] & _ & Hle & _)]);
          [contradiction|congruence].
    + rewrite elem_of_sent_off. split.
      * intros [_ (h & Hh & Hne)]. exists cur, h.
        split; [reflexivity|]. split; [exact Hh|]. split; [exact Hne|].
        right. exists tgt, tol. auto.
      * intros (c & h & _ & Hh & Hne & _). split; [reflexivity|]. exists h. auto.
  - rewrite elem_of_nil. split; [tauto|].
    intros (c & h & [= <-] & _ & _ & [Hm|(t & d & [= <-] & [= <-] & _ & Hb)]);
      [contradiction|congruence].
Qed.

(** At the tie of the rounding (reading 0.3, target 1.0, tolerance 0.7, as
    doubles) the exact distance exceeds the tolerance and the rounded one
    does not: no service call leaves. *)
Example tie_sends_nothing :
  service_calls (trace (_async_control_heating (demo_hass STATE_OFF) demo_tie)) = [].
Proof. vm_compute. reflexivity. Qed.

(** ** What an operation sends *)

Lemma control_sends_cases hass e :
  control_sends hass e = [] \/ control_sends hass e = sent_on hass e \/
  control_sends hass e = sent_off hass e.
Proof.
  unfold control_sends. repeat (case_step; auto).
Qed.

Lemma control_sends_mode_off hass e :
  _current_operation e = STATE_OFF ->
  control_sends hass e = [] \/ control_sends hass e = sent_off hass e.
Proof.
  intros Hoff. unfold control_sends. rewrite Hoff. cbn [String.eqb].
  destruct (_current_temperature e); auto.
Qed.

Section Sends.

Variable convert : pyfloat -> string -> string -> Outcome pyfloat.
Variable str_to_float : string -> option pyfloat.

Lemma sensor_changed_reading_run hass st q e :
  is_marker (state st) = false ->
  str_to_float (state st) = Some q ->
  _async_sensor_changed str_to_float hass (Some st) e
  = (outcome (_async_control_heating hass (set_current_temperature (Some q) e)),
     set_current_temperature (Some q) e,
     Call sensor_changed
       :: trace (_async_control_heating hass (set_current_temperature (Some q) e))).
Proof.
  intros Hvalid Hnum.
  pose proof (control_heating_final hass (set_current_temperature (Some q) e)) as Hfin.
  unfold _async_sensor_changed, py_float. rewrite Hvalid, Hnum.
  unfold mbind, M_bind, bind, mret, M_ret, ret, emit, assign. cbn [fst snd].
  unfold final, outcome, trace in *.
  destruct (_async_control_heating hass (set_current_temperature (Some q) e))
    as [[o e'] t]. cbn [fst snd] in *. subst e'. reflexivity.
Qed.

Lemma sensor_changed_garbage_run hass st e :
  is_marker (state st) = false ->
  str_to_float (state st) = None ->
  _async_sensor_changed str_to_float hass (Some st) e
  = (Raise ValueError, e, [Call sensor_changed]).
Proof.
  intros Hvalid Hnum.
  unfold _async_sensor_changed, py_float. rewrite Hvalid, Hnum.
  reflexivity.
Qed.

Lemma setter_run (f : GenericWaterHeater -> GenericWaterHeater) hass e :
  (assign f;; _async_control_heating hass) e
  = (outcome (_async_control_heating hass (f e)), f e,
     trace (_async_control_heating hass (f e))).
Proof.
  pose proof (control_heating_final hass (f e)) as Hfin.
  unfold mbind, M_bind, bind, assign. cbn [fst snd].
  unfold final, outcome, trace in *.
  destruct (_async_control_heating hass (f e)) as [[o e'] t].
  cbn [fst snd] in *. subst e'. reflexivity.
Qed.

Lemma handle_service_calls hass op e :
  service_calls (trace (handle convert str_to_float hass op e))
  = op_sends str_to_float hass op e.
Proof.
  destruct op; cbn [handle op_sends].
  - unfold async_set_temperature. rewrite setter_run.
    apply control_heating_service_calls.
  - unfold async_set_operation_mode. rewrite setter_run.
    apply control_heating_service_calls.
  - apply quiet_no_service_call, added_to_hass_quiet.
  - destruct new_state as [st|].
    + destruct (is_marker (state st)) eqn:Hm.
      * rewrite sensor_changed_failsafe_run by exact Hm.
        unfold trace. cbn [snd]. cbn [app service_calls List.filter is_service_call].
        change (List.filter is_service_call (sent_off hass e ++ ?t))
          with (service_calls (sent_off hass e ++ t)).
        rewrite service_calls_app, service_calls_sent_off. cbn.
        apply app_nil_r.
      * destruct (str_to_float (state st)) as [q|] eqn:Hq.
        -- rewrite (sensor_changed_reading_run hass st q e Hm Hq).
           unfold trace at 1. cbn [snd].
           apply control_heating_service_calls.
        -- rewrite (sensor_changed_garbage_run hass st e Hm Hq). reflexivity.
    + rewrite sensor_changed_failsafe_run by reflexivity.
      unfold trace. cbn [snd]. cbn [app service_calls List.filter is_service_call].
      change (List.filter is_service_call (sent_off hass e ++ ?t))
        with (service_calls (sent_off hass e ++ t)).
      rewrite service_calls_app, service_calls_sent_off. cbn.
      apply app_nil_r.
  - rewrite switch_changed_run. reflexivity.
  - apply control_heating_service_calls.
  - rewrite heater_turn_on_run. exact (service_calls_sent_on hass e).
  - rewrite heater_turn_off_run. exact (service_calls_sent_off hass e).
  - unfold mbind, M_bind, bind. rewrite min_temp_run.
    destruct (truthy (_min_temp e)); [reflexivity|].
    destruct (convert DEFAULT_MIN_TEMP TEMP_FAHRENHEIT (_unit_of_measurement e));
      reflexivity.
  - unfold mbind, M_bind, bind. rewrite max_temp_run.
    destruct (truthy (_max_temp e)); [reflexivity|].
    destruct (convert DEFAULT_MAX_TEMP TEMP_FAHRENHEIT (_unit_of_measurement e));
      reflexivity.
Qed.

Lemma op_sends_cases hass op e :
  op_sends str_to_float hass op e = [] \/
  op_sends str_to_float hass op e = sent_on hass e \/
  op_sends str_to_float hass op e = sent_off hass e.
Proof.
  destruct op; cbn [op_sends]; auto.
  - apply (control_sends_cases hass
             (set_target_temperature (kwargs !! ATTR_TEMPERATURE) e)).
  - apply (control_sends_cases hass (set_current_operation operation_mode e)).
  - destruct new_state as [st|]; auto.
    destruct (is_marker (state st)); auto.
    destruct (str_to_float (state st)) as [q|]; auto.
    apply (control_sends_cases hass (set_current_temperature (Some q) e)).
  - apply control_sends_cases.
Qed.

End Sends.

(** X4. Whatever the operation, the host state and the entity, one run of a
    handler sends at most one service call, and a service call it sends is
    [turn_on] or [turn_off] of the core domain addressed to the entity's own
    heater. *)
Theorem at_most_one_service_call (convert : pyfloat -> string -> string -> Outcome pyfloat)
    (str_to_float : string -> option pyfloat) (hass : gmap string State) op e :
  (length (service_calls (trace (handle convert str_to_float hass op e))) <= 1)%nat /\
  forall ev, ev ∈ trace (handle convert str_to_float hass op e) ->
             is_service_call ev = true ->
             ev = ServiceCall HA_DOMAIN SERVICE_TURN_ON (heater_entity_id e) \/
             ev = ServiceCall HA_DOMAIN SERVICE_TURN_OFF (heater_entity_id e).
Proof.
  split.
  - rewrite handle_service_calls.
    destruct (op_sends_cases str_to_float hass op e) as [H|[H|H]]; rewrite H.
    + simpl. lia.
    + apply (sent_length TurnOn).
    + apply (sent_length TurnOff).
  - intros ev Hin Hsc.
    assert (Hin' : ev ∈ service_calls (trace (handle convert str_to_float hass op e)))
      by (apply elem_of_service_calls; auto).
    rewrite handle_service_calls in Hin'.
    destruct (op_sends_cases str_to_float hass op e) as [H|[H|H]]; rewrite H in Hin'.
    + apply elem_of_nil in Hin'. contradiction.
    + apply elem_of_sent_on in Hin' as [-> _]. left. reflexivity.
    + apply elem_of_sent_off in Hin' as [-> _]. right. reflexivity.
Qed.

Lemma at_most_one_service_call_witness :
  (length
     (service_calls
        (trace (handle demo_convert demo_float (demo_hass STATE_OFF)
                  (SensorChanged (Some (mkState "115" ∅))) demo_heater)))
   <= 1)%nat.
Proof.
  exact (proj1 (at_most_one_service_call demo_convert demo_float
                  (demo_hass STATE_OFF) (SensorChanged (Some (mkState "115" ∅)))
                  demo_heater)).
Defined.

(** X5. No handler asks for heat in mode "off": if the mode is "off" when an
    operation ends (the bare [_async_heater_turn_on] apart), its trace holds
    no [turn_on] service call. *)
Theorem no_turn_on_in_mode_off (convert : pyfloat -> string -> string -> Outcome pyfloat)
    (str_to_float : string -> option pyfloat) (hass : gmap string State) op e d id :
  op <> HeaterTurnOn ->
  _current_operation (final (handle convert str_to_float hass op e)) = STATE_OFF ->
  ServiceCall d SERVICE_TURN_ON id ∉ trace (handle convert str_to_float hass op e).
Proof.
  intros Hop Hmode Hin.
  assert (Hin' : ServiceCall d SERVICE_TURN_ON id
                   ∈ service_calls (trace (handle convert str_to_float hass op e)))
    by (apply elem_of_service_calls; auto).
  rewrite handle_service_calls in Hin'. clear Hin.
  assert (Hoffs : forall e', ServiceCall d SERVICE_TURN_ON id ∉ sent_off hass e').
  { intros e' H. apply elem_of_sent_off in H as [[=] _]. }
  assert (Hctl : forall e', _current_operation e' = STATE_OFF ->
                            ServiceCall d SERVICE_TURN_ON id ∉ control_sends hass e').
  { intros e' Hoff H.
    destruct (control_sends_mode_off hass e' Hoff) as [E|E]; rewrite E in H.
    - apply elem_of_nil in H. exact H.
    - exact (Hoffs _ H). }
  destruct op; cbn [handle op_sends] in *.
  - rewrite set_temperature_final in Hmode. exact (Hctl _ Hmode Hin').
  - rewrite set_operation_mode_final in Hmode. exact (Hctl _ Hmode Hin').
  - apply elem_of_nil in Hin'. exact Hin'.
  - rewrite sensor_changed_final in Hmode.
    destruct new_state as [st|]; [|exact (Hoffs _ Hin')].
    destruct (is_marker (state st)); [exact (Hoffs _ Hin')|].
    destruct (str_to_float (state st)) as [q|].
    + exact (Hctl _ Hmode Hin').
    + apply elem_of_nil in Hin'. exact Hin'.
  - apply elem_of_nil in Hin'. exact Hin'.
  - rewrite control_heating_final in Hmode. exact (Hctl _ Hmode Hin').
  - contradiction.
  - exact (Hoffs _ Hin').
  - apply elem_of_nil in Hin'. exact Hin'.
  - apply elem_of_nil in Hin'. exact Hin'.
Qed.

Lemma no_turn_on_in_mode_off_witness :
  ServiceCall HA_DOMAIN SERVICE_TURN_ON "switch.boiler"
    ∉ trace (handle demo_convert demo_float (demo_hass STATE_OFF)
               (SetOperationMode STATE_OFF) (demo_reading 115)).
Proof.
  apply no_turn_on_in_mode_off; [discriminate | vm_compute; reflexivity].
Defined.

(** ** The two setters *)

(** The setters up to the publication call: a fault of the re-evaluation, or
    the commanded events between the entry and the one publication call,
    made on the updated entity. *)
Lemma setter_publishes (f : GenericWaterHeater -> GenericWaterHeater) hass e :
  (control_faults (f e) = true ->
   (assign f;; _async_control_heating hass) e
   = (Raise TypeError, f e, [Call control_heating])) /\
  publications (trace ((assign f;; _async_control_heating hass) e))
  = (if control_faults (f e) then [] else [WriteHaState (f e)]) /\
  (control_faults (f e) = false ->
   last (trace ((assign f;; _async_control_heating hass) e))
   = Some (WriteHaState (f e))).
Proof.
  rewrite setter_run.
  destruct (control_heating_result hass (f e)) as (mid & Hrun & _ & Hp & _).
  rewrite Hrun. destruct (control_faults (f e)); unfold outcome, trace; cbn [fst snd].
  - split; [reflexivity|]. split; [reflexivity|discriminate].
  - split; [discriminate|]. split.
    + unfold publications in *. rewrite !List.filter_app, Hp. reflexivity.
    + intros _. rewrite app_assoc. apply last_snoc.
Qed.

(** X6. Switching the mode to "off" always gets to the publication call,
    whatever the target and the tolerance are: the comparison of the
    reading with the target is never evaluated.  The mode is stored,
    [turn_off] is sent exactly when a current temperature is set and the
    heater has a reported state other than "off", [turn_on] is never sent,
    and the last event is the one publication call, made on the entity as
    it was entered but for the mode. *)
Theorem set_operation_mode_off_publishes (hass : gmap string State) e :
  current_operation (final (async_set_operation_mode hass STATE_OFF e)) = STATE_OFF /\
  service_calls (trace (async_set_operation_mode hass STATE_OFF e))
  = match _current_temperature e with
    | Some _ => sent_off hass e
    | None => []
    end /\
  publications (trace (async_set_operation_mode hass STATE_OFF e))
  = [WriteHaState (set_current_operation STATE_OFF e)] /\
  last (trace (async_set_operation_mode hass STATE_OFF e))
  = Some (WriteHaState (set_current_operation STATE_OFF e)).
Proof.
  assert (Hnf : control_faults (set_current_operation STATE_OFF e) = false).
  { unfold control_faults. cbn. destruct (_current_temperature e); reflexivity. }
  unfold async_set_operation_mode.
  destruct (setter_publishes (set_current_operation STATE_OFF) hass e)
    as (_ & Hpub & Hlast).
  rewrite Hnf in Hpub. specialize (Hlast Hnf).
  split; [|split; [|split; [exact Hpub|exact Hlast]]].
  - rewrite setter_run. reflexivity.
  - rewrite setter_run. unfold trace at 1. cbn [snd].
    rewrite control_heating_service_calls.
    unfold control_sends. cbn. destruct (_current_temperature e); reflexivity.
Qed.

(** X7. Both setters store their argument before deciding, so the new value
    is kept whether the re-evaluation gets to its publication or raises:
    after [async_set_temperature] the target is the [temperature] keyword
    argument ([None] without one), after [async_set_operation_mode] the
    mode is the argument.  A setter stops short of the publication call
    exactly when the re-evaluation of the updated entity faults on an unset
    target or tolerance; it then raises [TypeError] with that one
    attribute written.  Otherwise its one publication call is made on the
    entity with that one attribute written. *)
Theorem setters_store_first (hass : gmap string State)
    (kwargs : gmap string pyfloat) (m : string) e :
  let e1 := set_target_temperature (kwargs !! ATTR_TEMPERATURE) e in
  let e2 := set_current_operation m e in
  target_temperature (final (async_set_temperature hass kwargs e))
  = kwargs !! ATTR_TEMPERATURE /\
  publications (trace (async_set_temperature hass kwargs e))
  = (if control_faults e1 then [] else [WriteHaState e1]) /\
  (control_faults e1 = true ->
   async_set_temperature hass kwargs e
   = (Raise TypeError, e1, [Call control_heating])) /\
  current_operation (final (async_set_operation_mode hass m e)) = m /\
  publications (trace (async_set_operation_mode hass m e))
  = (if control_faults e2 then [] else [WriteHaState e2]) /\
  (control_faults e2 = true ->
   async_set_operation_mode hass m e
   = (Raise TypeError, e2, [Call control_heating])).
Proof.
  intros e1 e2. unfold async_set_temperature, async_set_operation_mode.
  destruct (setter_publishes
              (set_target_temperature (kwargs !! ATTR_TEMPERATURE)) hass e)
    as (Hf1 & Hp1 & _).
  destruct (setter_publishes (set_current_operation m) hass e) as (Hf2 & Hp2 & _).
  split; [rewrite setter_run; reflexivity|].
  split; [exact Hp1|]. split; [exact Hf1|].
  split; [rewrite setter_run; reflexivity|].
  split; [exact Hp2|exact Hf2].
Qed.

(** A target removed by the setter: the target is stored as [None] and the
    re-evaluation faults before any publication. *)
Lemma setters_store_first_witness :
  async_set_temperature (demo_hass STATE_OFF) ∅ (demo_reading 115)
  = (Raise TypeError, set_target_temperature None (demo_reading 115),
     [Call control_heating]).
Proof.
  destruct (setters_store_first (demo_hass STATE_OFF) ∅ STATE_ON (demo_reading 115))
    as (_ & _ & H & _).
  apply H. reflexivity.
Defined.

(** X8. A sensor state that is neither a marker nor a number makes
    [_async_sensor_changed] raise [ValueError] right after its entry: the
    previous current temperature is kept, nothing is commanded or sent, and
    nothing is published. *)
Theorem sensor_garbage_raises (str_to_float : string -> option pyfloat)
    (hass : gmap string State) st e :
  is_marker (state st) = false ->
  str_to_float (state st) = None ->
  outcome (_async_sensor_changed str_to_float hass (Some st) e) = Raise ValueError /\
  final (_async_sensor_changed str_to_float hass (Some st) e) = e /\
  current_temperature (final (_async_sensor_changed str_to_float hass (Some st) e))
  = current_temperature e /\
  trace (_async_sensor_changed str_to_float hass (Some st) e) = [Call sensor_changed].
Proof.
  intros Hvalid Hnum.
  rewrite (sensor_changed_garbage_run str_to_float hass st e Hvalid Hnum).
  repeat split; reflexivity.
Qed.

Lemma sensor_garbage_raises_witness :
  outcome (_async_sensor_changed demo_float (demo_hass STATE_ON)
             (Some (mkState "warm" ∅)) (demo_reading 123))
  = Raise ValueError /\
  current_temperature
    (final (_async_sensor_changed demo_float (demo_hass STATE_ON)
              (Some (mkState "warm" ∅)) (demo_reading 123)))
  = Some (float_of_int 123).
Proof.
  destruct (sensor_garbage_raises demo_float (demo_hass STATE_ON)
              (mkState "warm" ∅) (demo_reading 123))
    as (H1 & _ & H2 & _); [reflexivity | reflexivity |].
  split; [exact H1 | exact H2].
Defined.

(** X9. A numeric sensor state is stored before the decision is taken: the
    handler runs the re-evaluation on the entity carrying the new reading,
    so its outcome and its events after the entry are those of that
    re-evaluation, and the reading is kept also when the re-evaluation
    raises. *)
Theorem sensor_reading_stored_first (str_to_float : string -> option pyfloat)
    (hass : gmap string State) st q e :
  is_marker (state st) = false ->
  str_to_float (state st) = Some q ->
  final (_async_sensor_changed str_to_float hass (Some st) e)
  = set_current_temperature (Some q) e /\
  current_temperature (final (_async_sensor_changed str_to_float hass (Some st) e))
  = Some q /\
  outcome (_async_sensor_changed str_to_float hass (Some st) e)
  = outcome (_async_control_heating hass (set_current_temperature (Some q) e)) /\
  trace (_async_sensor_changed str_to_float hass (Some st) e)
  = Call sensor_changed
      :: trace (_async_control_heating hass (set_current_temperature (Some q) e)) /\
  service_calls (trace (_async_sensor_changed str_to_float hass (Some st) e))
  = control_sends hass (set_current_temperature (Some q) e).
Proof.
  intros Hvalid Hnum.
  rewrite (sensor_changed_reading_run str_to_float hass st q e Hvalid Hnum).
  unfold final at 1 2, outcome at 1, trace at 1 3. cbn [fst snd].
  repeat split; try reflexivity.
  apply control_heating_service_calls.
Qed.

Lemma sensor_reading_stored_first_witness :
  current_temperature
    (final (_async_sensor_changed demo_float (demo_hass STATE_ON)
              (Some (mkState "123" ∅)) demo_heater))
  = Some (float_of_int 123) /\
  service_calls
    (trace (_async_sensor_changed demo_float (demo_hass STATE_ON)
              (Some (mkState "123" ∅)) demo_heater))
  = [ServiceCall HA_DOMAIN SERVICE_TURN_OFF "switch.boiler"].
Proof.
  destruct (sensor_reading_stored_first demo_float (demo_hass STATE_ON)
              (mkState "123" ∅) (float_of_int 123) demo_heater)
    as (_ & H1 & _ & _ & H2); [reflexivity | reflexivity |].
  split; [exact H1 | rewrite H2; reflexivity].
Defined.

(** X10. Without a current temperature the setters command nothing: each
    stores its argument, enters the re-evaluation and goes straight to the
    publication call, made on the updated entity.  No command handler is
    entered and no service call is sent, not even [turn_off] when the mode
    is set to "off"; and no unset target or tolerance is looked at. *)
Theorem setters_without_reading (hass : gmap string State)
    (kwargs : gmap string pyfloat) (m : string) e :
  _current_temperature e = None ->
  trace (async_set_temperature hass kwargs e)
  = [Call control_heating;
     WriteHaState (set_target_temperature (kwargs !! ATTR_TEMPERATURE) e)] /\
  target_temperature (final (async_set_temperature hass kwargs e))
  = kwargs !! ATTR_TEMPERATURE /\
  trace (async_set_operation_mode hass m e)
  = [Call control_heating; WriteHaState (set_current_operation m e)] /\
  current_operation (final (async_set_operation_mode hass m e)) = m /\
  service_calls (trace (async_set_temperature hass kwargs e)) = [] /\
  service_calls (trace (async_set_operation_mode hass m e)) = [].
Proof.
  intros Hcur. unfold async_set_temperature, async_set_operation_mode.
  rewrite !setter_run.
  rewrite (control_heating_no_reading hass
             (set_target_temperature (kwargs !! ATTR_TEMPERATURE) e)) by exact Hcur.
  rewrite (control_heating_no_reading hass (set_current_operation m e)) by exact Hcur.
  repeat split; reflexivity.
Qed.

Lemma setters_without_reading_witness :
  trace (async_set_operation_mode (demo_hass STATE_ON) STATE_OFF demo_heater)
  = [Call control_heating;
     WriteHaState (set_current_operation STATE_OFF demo_heater)] /\
  service_calls
    (trace (async_set_operation_mode (demo_hass STATE_ON) STATE_OFF demo_heater))
  = [].
Proof.
  destruct (setters_without_reading (demo_hass STATE_ON) ∅ STATE_OFF
              demo_heater eq_refl) as (_ & _ & H1 & _ & _ & H2).
  split; [exact H1 | exact H2].
Defined.

(** ** The switch callback, again *)

(** X11. When the mode is one of the operation list and the switch reports
    "on" or "off", the callback leaves the mode equal to the reported state
    and the entity available. *)
Theorem mode_follows_switch st e :
  valid_mode e ->
  state st ∈ _operation_list ->
  current_operation (final (_async_switch_changed (Some st) e)) = state st /\
  _attr_available (final (_async_switch_changed (Some st) e)) = true.
Proof.
  unfold valid_mode, _operation_list, current_operation.
  rewrite !elem_of_cons, !elem_of_nil.
  intros [Hm|[Hm|[]]] [Hs|[Hs|[]]];
    rewrite switch_changed_run; unfold final; cbn [fst snd];
    rewrite Hm, Hs; split; vm_compute; first [reflexivity | exact Hm].
Qed.

Lemma mode_follows_switch_witness :
  current_operation
    (final (_async_switch_changed (Some (mkState STATE_OFF ∅)) (demo_reading 115)))
  = STATE_OFF.
Proof.
  refine (proj1 (mode_follows_switch (mkState STATE_OFF ∅) (demo_reading 115) _ _)).
  - unfold valid_mode, _operation_list. rewrite !elem_of_cons. left. reflexivity.
  - unfold _operation_list. rewrite !elem_of_cons. right. left. reflexivity.
Defined.

(** X12. The switch callback is idempotent on the attributes: delivering the
    same event a second time changes nothing, so the second publication
    repeats the first. *)
Theorem switch_changed_idempotent new_state e :
  _async_switch_changed new_state (final (_async_switch_changed new_state e))
  = (Return tt, final (_async_switch_changed new_state e),
     [Call switch_changed;
      WriteHaState (final (_async_switch_changed new_state e))]).
Proof.
  rewrite (switch_changed_run new_state e). unfold final. cbn [fst snd].
  rewrite switch_changed_run. cbv zeta.
  destruct e as [nm hid sid tgt tol mn mx un mode cur av].
  destruct new_state as [[s attrs]|]; [|reflexivity].
  cbn [state _current_operation set_current_operation set_attr_available
         _attr_name heater_entity_id sensor_entity_id _target_temperature
         _temperature_delta _min_temp _max_temp _unit_of_measurement
         _current_temperature _attr_available].
  destruct (is_marker s); [reflexivity|].
  destruct (String.eqb_spec s STATE_ON) as [Hon|Hon];
    destruct (String.eqb_spec mode STATE_OFF) as [Hoff|Hoff];
    destruct (String.eqb_spec s STATE_OFF) as [Hsoff|Hsoff];
    destruct (String.eqb_spec mode STATE_ON) as [Hmon|Hmon];
    subst; try discriminate; try contradiction;
    cbn [andb state _current_operation set_current_operation set_attr_available
           _attr_name heater_entity_id sensor_entity_id _target_temperature
           _temperature_delta _min_temp _max_temp _unit_of_measurement
           _current_temperature _attr_available];
    try reflexivity.
  all: repeat match goal with
         | |- context [String.eqb ?a ?b] =>
             destruct (String.eqb_spec a b); try discriminate; try contradiction
         end; reflexivity.
Qed.

(** ** What operations leave alone *)

Section Untouched.

Variable convert : pyfloat -> string -> string -> Outcome pyfloat.
Variable str_to_float : string -> option pyfloat.

Lemma added_to_hass_configuration hass last_state e :
  configuration (final (async_added_to_hass str_to_float hass last_state e))
  = configuration e.
Proof.
  unfold async_added_to_hass, async_write_ha_state, py_float.
  unfold_m.
  destruct (hass !! sensor_entity_id e) as [ts|];
    [destruct (is_marker (state ts));
     [|destruct (str_to_float (state ts)) as [reading|]]|];
    (destruct (hass !! heater_entity_id e) as [hs|];
     [destruct (is_marker (state hs))|]);
    (destruct last_state as [old_state|];
     [destruct (attr_get (attributes old_state) ATTR_TEMPERATURE) as [|q|s];
      [| |destruct (str_to_float s) as [restored|]]|]);
    reflexivity.
Qed.

Lemma switch_changed_final new_state e :
  final (_async_switch_changed new_state e)
  = match new_state with
    | None => set_attr_available false e
    | Some st =>
        if is_marker (state st) then set_attr_available false e
        else if String.eqb (state st) STATE_ON
                && String.eqb (_current_operation e) STATE_OFF
        then set_current_operation STATE_ON (set_attr_available true e)
        else if String.eqb (state st) STATE_OFF
                && String.eqb (_current_operation e) STATE_ON
        then set_current_operation STATE_OFF (set_attr_available true e)
        else set_attr_available true e
    end.
Proof. rewrite switch_changed_run. reflexivity. Qed.

Lemma handle_configuration hass op e :
  configuration (final (handle convert str_to_float hass op e)) = configuration e.
Proof.
  destruct op; cbn [handle].
  - rewrite set_temperature_final. reflexivity.
  - rewrite set_operation_mode_final. reflexivity.
  - apply added_to_hass_configuration.
  - rewrite sensor_changed_final. repeat (case_step; try reflexivity).
  - rewrite switch_changed_final. repeat (case_step; try reflexivity).
  - rewrite control_heating_final. reflexivity.
  - rewrite heater_turn_on_final. reflexivity.
  - rewrite heater_turn_off_final. reflexivity.
  - rewrite min_temp_final. repeat case_step; reflexivity.
  - rewrite max_temp_final. repeat case_step; reflexivity.
Qed.

Lemma handle_mode_stuck hass op e :
  ~ valid_mode e -> writes_mode op = false ->
  _current_operation (final (handle convert str_to_float hass op e))
  = _current_operation e.
Proof.
  unfold valid_mode, _operation_list. rewrite !elem_of_cons, elem_of_nil.
  intros Hout Hop. destruct op; cbn [handle]; try discriminate Hop.
  - rewrite set_temperature_final. reflexivity.
  - destruct last_state; [discriminate Hop|].
    destruct (added_to_hass_final_cases str_to_float hass None e)
      as (_ & _ & [H|(old & [=] & _)]). exact H.
  - rewrite sensor_changed_final. repeat (case_step; try reflexivity).
  - rewrite switch_changed_final.
    destruct new_state as [st|]; [|reflexivity].
    destruct (is_marker (state st)); [reflexivity|].
    destruct (String.eqb_spec (_current_operation e) STATE_OFF) as [H|H];
      [tauto|].
    destruct (String.eqb_spec (_current_operation e) STATE_ON) as [H'|H'];
      [tauto|].
    rewrite !andb_false_r. reflexivity.
  - rewrite control_heating_final. reflexivity.
  - rewrite heater_turn_on_final. reflexivity.
  - rewrite heater_turn_off_final. reflexivity.
  - rewrite min_temp_final. repeat case_step; reflexivity.
  - rewrite max_temp_final. repeat case_step; reflexivity.
Qed.

Lemma handle_available hass op e :
  writes_available op = false ->
  _attr_available (final (handle convert str_to_float hass op e))
  = _attr_available e.
Proof.
  intros Hop. destruct op; cbn [handle]; try discriminate Hop.
  - rewrite set_temperature_final. reflexivity.
  - rewrite set_operation_mode_final. reflexivity.
  - rewrite sensor_changed_final. repeat (case_step; try reflexivity).
  - rewrite control_heating_final. reflexivity.
  - rewrite heater_turn_on_final. reflexivity.
  - rewrite heater_turn_off_final. reflexivity.
  - rewrite min_temp_final. repeat case_step; reflexivity.
  - rewrite max_temp_final. repeat case_step; reflexivity.
Qed.

Lemma run_app h1 h2 e :
  run convert str_to_float (h1 ++ h2) e
  = run convert str_to_float h2 (run convert str_to_float h1 e).
Proof.
  revert e. induction h1 as [|[hass op] h1 IH]; intros e; [reflexivity|].
  simpl. apply IH.
Qed.

Lemma run_available history : forall e,
  Forall (fun x => writes_available x.2 = false) history ->
  _attr_available (run convert str_to_float history e) = _attr_available e.
Proof.
  induction history as [|[hass op] history IH]; intros e Hall; [reflexivity|].
  inversion Hall as [|x l Hop Hrest]; subst. simpl.
  rewrite IH by exact Hrest. apply handle_available. exact Hop.
Qed.

End Untouched.

(** X13. A mode outside the operation list is never repaired by the events:
    as long as no [async_set_operation_mode] and no restoring attach occurs,
    every operation (sensor and switch events included) leaves it as it is,
    along any history. *)
Theorem mode_outside_list_persists (convert : pyfloat -> string -> string -> Outcome pyfloat)
    (str_to_float : string -> option pyfloat)
    (history : list (gmap string State * Op)) e :
  ~ valid_mode e ->
  Forall (fun x => writes_mode x.2 = false) history ->
  current_operation (run convert str_to_float history e) = current_operation e.
Proof.
  unfold current_operation. revert e.
  induction history as [|[hass op] history IH]; intros e Hout Hall; [reflexivity|].
  inversion Hall as [|x l Hop Hrest]; subst. simpl in Hop |- *.
  pose proof (handle_mode_stuck convert str_to_float hass op e Hout Hop) as Hstep.
  rewrite IH; [exact Hstep | | exact Hrest].
  unfold valid_mode in *. rewrite Hstep. exact Hout.
Qed.

Lemma mode_outside_list_persists_witness :
  current_operation
    (run demo_convert demo_float
       [(demo_hass STATE_ON, SwitchChanged (Some (mkState STATE_OFF ∅)));
        (demo_hass STATE_OFF, SensorChanged (Some (mkState "115" ∅)))]
       (set_current_operation STATE_UNAVAILABLE demo_heater))
  = STATE_UNAVAILABLE.
Proof.
  apply (mode_outside_list_persists demo_convert demo_float _
           (set_current_operation STATE_UNAVAILABLE demo_heater)).
  - unfold valid_mode, _operation_list. cbn [_current_operation set_current_operation].
    rewrite !elem_of_cons, elem_of_nil. intros [[=]|[[=]|[]]].
  - repeat constructor.
Defined.

(** X14. No operation writes the name, the two entity ids, the unit or the
    tolerance: along any history they are what the constructor was given. *)
Theorem configuration_is_fixed (convert : pyfloat -> string -> string -> Outcome pyfloat)
    (str_to_float : string -> option pyfloat)
    (history : list (gmap string State * Op)) e :
  configuration (run convert str_to_float history e) = configuration e.
Proof.
  revert e. induction history as [|[hass op] history IH]; intros e; [reflexivity|].
  simpl. rewrite IH. apply handle_configuration.
Qed.

(** X15. The availability mirrors the last switch event: after a switch
    event, and any further operations other than switch events and attach,
    the entity is available exactly when that event carried a state other
    than "unavailable" and "unknown". *)
Theorem available_mirrors_last_switch_event
    (convert : pyfloat -> string -> string -> Outcome pyfloat) (str_to_float : string -> option pyfloat)
    (before after : list (gmap string State * Op))
    (hass : gmap string State) (new_state : option State) e :
  Forall (fun x => writes_available x.2 = false) after ->
  _attr_available
    (run convert str_to_float
       (before ++ (hass, SwitchChanged new_state) :: after) e)
  = negb (no_valid_state new_state).
Proof.
  intros Hafter. rewrite run_app. simpl.
  rewrite run_available by exact Hafter.
  rewrite switch_changed_final.
  destruct new_state as [st|]; [|reflexivity]. simpl.
  destruct (is_marker (state st)); [reflexivity|].
  repeat (case_step; try reflexivity).
Qed.

Lemma available_mirrors_last_switch_event_witness :
  _attr_available
    (run demo_convert demo_float
       ([(demo_hass STATE_ON, AddedToHass None)]
          ++ (demo_hass STATE_ON, SwitchChanged (Some (mkState STATE_UNKNOWN ∅)))
          :: [(demo_hass STATE_ON, SensorChanged (Some (mkState "121" ∅)))])
       demo_heater)
  = false.
Proof.
  apply (available_mirrors_last_switch_event demo_convert demo_float
           [(demo_hass STATE_ON, AddedToHass None)]
           [(demo_hass STATE_ON, SensorChanged (Some (mkState "121" ∅)))]
           (demo_hass STATE_ON) (Some (mkState STATE_UNKNOWN ∅)) demo_heater).
  repeat constructor.
Defined.

(** ** The temperature limits, again *)

(** X16. The limit accessors are idempotent, whatever [convert] is bound
    to: a second read has the outcome of the first (the same answer, or the
    same exception) and leaves the attributes as the first left them,
    whether the limit was configured or defaulted.  A read raises exactly
    when the limit is unset or zero and the conversion of the default
    raises, with the exception of the conversion and nothing written; a
    read that returns never returns [None]; and the accessors emit no
    event. *)
Theorem limit_accessors_idempotent
    (convert : pyfloat -> string -> string -> Outcome pyfloat) e :
  min_temp convert (final (min_temp convert e))
  = (outcome (min_temp convert e), final (min_temp convert e), []) /\
  max_temp convert (final (max_temp convert e))
  = (outcome (max_temp convert e), final (max_temp convert e), []) /\
  (forall x,
     min_temp convert e = (Raise x, e, [])
     <-> truthy (_min_temp e) = false /\
         convert DEFAULT_MIN_TEMP TEMP_FAHRENHEIT (_unit_of_measurement e) = Raise x) /\
  (forall x,
     max_temp convert e = (Raise x, e, [])
     <-> truthy (_max_temp e) = false /\
         convert DEFAULT_MAX_TEMP TEMP_FAHRENHEIT (_unit_of_measurement e) = Raise x) /\
  outcome (min_temp convert e) <> Return None /\
  outcome (max_temp convert e) <> Return None /\
  trace (min_temp convert e) = [] /\ trace (max_temp convert e) = [].
Proof.
  rewrite (min_temp_run convert e), (max_temp_run convert e).
  destruct (truthy (_min_temp e)) eqn:Emin;
    destruct (truthy (_max_temp e)) eqn:Emax;
    destruct (convert DEFAULT_MIN_TEMP TEMP_FAHRENHEIT (_unit_of_measurement e))
      as [dmin|xmin] eqn:Cmin;
    destruct (convert DEFAULT_MAX_TEMP TEMP_FAHRENHEIT (_unit_of_measurement e))
      as [dmax|xmax] eqn:Cmax;
    unfold outcome, final, trace; cbn [fst snd].
  all: rewrite ?min_temp_run, ?max_temp_run.
  all: cbn [_min_temp _max_temp set_min_temp set_max_temp _unit_of_measurement].
  all: rewrite ?Emin, ?Emax, ?Cmin, ?Cmax.
  all: repeat match goal with |- _ /\ _ => split end.
  all: try reflexivity.
  all: try (intros x; split; [intros [=] | intros [[=] _]]; fail).
  all: try (intros x; split; [intros [=] | intros [_ [=]]]; fail).
  all: try (intros x; split; [intros [= ->]; auto | intros [_ [= ->]]; reflexivity];
            fail).
  all: try (intros [= H]; rewrite H in *; discriminate; fail).
  all: try (intros [=]; fail).
  all: try (repeat case_step; destruct e; reflexivity).
Qed.

(** Read through the converter class, an unset minimum raises at each read
    and stays unset. *)
Example min_temp_unset_converter_class :
  min_temp demo_converter_class demo_heater = (Raise TypeError, demo_heater, []) /\
  _min_temp (final (min_temp demo_converter_class demo_heater)) = None.
Proof. split; vm_compute; reflexivity. Qed.

(** X17. A limit configured with a non-zero value is answered as it is, for
    every unit, and the accessor writes nothing. *)
Theorem configured_limits_returned
    (convert : pyfloat -> string -> string -> Outcome pyfloat) e lo hi :
  _min_temp e = Some lo -> float_is_zero lo = false ->
  _max_temp e = Some hi -> float_is_zero hi = false ->
  min_temp convert e = (Return (Some lo), e, []) /\
  max_temp convert e = (Return (Some hi), e, []).
Proof.
  intros Hlo Hlo0 Hhi Hhi0. rewrite min_temp_run, max_temp_run, Hlo, Hhi.
  unfold truthy. rewrite Hlo0, Hhi0. split; reflexivity.
Qed.

Lemma configured_limits_returned_witness :
  min_temp demo_convert
    (__init__ "boiler" "switch.boiler" "sensor.boiler" (Some (float_of_int 50)) (Some (float_of_int 2))
       (Some (float_of_int 30)) (Some (float_of_int 60)) "°C")
  = (Return (Some (float_of_int 30)),
     __init__ "boiler" "switch.boiler" "sensor.boiler" (Some (float_of_int 50)) (Some (float_of_int 2))
       (Some (float_of_int 30)) (Some (float_of_int 60)) "°C", []).
Proof.
  refine (proj1 (configured_limits_returned demo_convert
                   (__init__ "boiler" "switch.boiler" "sensor.boiler"
                      (Some (float_of_int 50)) (Some (float_of_int 2)) (Some (float_of_int 30)) (Some (float_of_int 60)) "°C")
                   (float_of_int 30) (float_of_int 60)
                   eq_refl eq_refl eq_refl eq_refl)).
Defined.

(** X18. The two accessors do not interfere, provided the conversion
    treats the two platform defaults alike (it returns for both, as the
    conversion function does, or raises the same exception for both, as the
    converter class does): read in either order they give the same outcome,
    the same pair of answers when they return, and the same attributes. *)
Theorem limit_accessors_commute
    (convert : pyfloat -> string -> string -> Outcome pyfloat) e :
  fail_alike (convert DEFAULT_MIN_TEMP TEMP_FAHRENHEIT (_unit_of_measurement e))
             (convert DEFAULT_MAX_TEMP TEMP_FAHRENHEIT (_unit_of_measurement e))
  = true ->
  (lo ← min_temp convert; hi ← max_temp convert; mret (lo, hi)) e
  = (hi ← max_temp convert; lo ← min_temp convert; mret (lo, hi)) e.
Proof.
  intros Halike.
  unfold mbind, M_bind, bind, mret, M_ret, ret.
  rewrite (min_temp_run convert e), (max_temp_run convert e).
  destruct (truthy (_min_temp e)) eqn:Emin;
    destruct (truthy (_max_temp e)) eqn:Emax;
    destruct (convert DEFAULT_MIN_TEMP TEMP_FAHRENHEIT (_unit_of_measurement e))
      as [dmin|xmin] eqn:Cmin;
    destruct (convert DEFAULT_MAX_TEMP TEMP_FAHRENHEIT (_unit_of_measurement e))
      as [dmax|xmax] eqn:Cmax;
    try discriminate Halike;
    repeat progress
      (rewrite ?min_temp_run, ?max_temp_run;
       cbn [_min_temp _max_temp set_min_temp set_max_temp _unit_of_measurement];
       rewrite ?Emin, ?Emax, ?Cmin, ?Cmax; cbv beta iota zeta);
    try reflexivity.
  all: try (destruct xmin, xmax; try discriminate Halike; reflexivity).
  all: destruct e; reflexivity.
Qed.

Lemma limit_accessors_commute_witness :
  (lo ← min_temp demo_convert; hi ← max_temp demo_convert; mret (lo, hi)) demo_celsius
  = (hi ← max_temp demo_convert; lo ← min_temp demo_convert; mret (lo, hi)) demo_celsius.
Proof.
  apply (limit_accessors_commute demo_convert demo_celsius). reflexivity.
Defined.

(** ** Attaching, when it fails *)

(** X19. [async_added_to_hass] gets to its publication call exactly when
    the restored temperature, if there is one, and the live sensor state, if
    it is valid, are accepted by [float]; otherwise it raises [ValueError]
    after the two subscriptions, with no publication call made and the
    current temperature and the availability left as they were. *)
Theorem added_to_hass_raises_iff (str_to_float : string -> option pyfloat)
    (hass : gmap string State) (last_state : option State) e :
  (publications (trace (async_added_to_hass str_to_float hass last_state e)) <> []
   <-> (restored_temperature last_state <> VNone ->
        is_Some (float_value str_to_float (restored_temperature last_state))) /\
       (forall st, live_valid hass (sensor_entity_id e) = Some st ->
                   is_Some (str_to_float (state st)))) /\
  (publications (trace (async_added_to_hass str_to_float hass last_state e)) = [] ->
   outcome (async_added_to_hass str_to_float hass last_state e) = Raise ValueError /\
   trace (async_added_to_hass str_to_float hass last_state e)
   = [Track (sensor_entity_id e) sensor_changed;
      Track (heater_entity_id e) switch_changed] /\
   _current_temperature (final (async_added_to_hass str_to_float hass last_state e))
   = _current_temperature e /\
   _attr_available (final (async_added_to_hass str_to_float hass last_state e))
   = _attr_available e).
Proof.
  unfold async_added_to_hass, async_write_ha_state, py_float,
    restored_temperature, live_valid, float_value.
  unfold_m.
  destruct (hass !! sensor_entity_id e) as [ts|];
    [destruct (is_marker (state ts));
     [|destruct (str_to_float (state ts)) as [reading|] eqn:Hreading]|];
    (destruct (hass !! heater_entity_id e) as [hs|];
     [destruct (is_marker (state hs))|]);
    (destruct last_state as [old_state|];
     [destruct (attr_get (attributes old_state) ATTR_TEMPERATURE) as [|q|s];
      [| |destruct (str_to_float s) as [restored|]]|]);
    simpl.
  all: split; [split|].
  (* a publication gives numeric data *)
  all: try (intros Hout;
            first [ exfalso; apply Hout; reflexivity
                  | split;
                    [ intros Hne; first [ eexists; reflexivity
                                        | exfalso; apply Hne; reflexivity ]
                    | intros st Hst;
                      first [ discriminate Hst
                            | injection Hst as <-; rewrite Hreading;
                              eexists; reflexivity ] ] ];
            fail).
  (* numeric data gives the publication *)
  all: try (intros [H1 H2];
            first [ discriminate
                  | exfalso; destruct H1 as [? [=]]; discriminate
                  | exfalso; destruct (H2 _ eq_refl) as [? Hx];
                    rewrite Hreading in Hx; discriminate Hx ];
            fail).
  (* a run without publication *)
  all: intros Hne;
    first [ discriminate Hne | repeat split; reflexivity ].
Qed.

Lemma added_to_hass_raises_iff_witness :
  outcome (async_added_to_hass demo_float
             {[ "sensor.boiler" := mkState "warm" ∅ ]}
             (Some demo_snapshot) demo_heater)
  = Raise ValueError /\
  trace (async_added_to_hass demo_float
           {[ "sensor.boiler" := mkState "warm" ∅ ]}
           (Some demo_snapshot) demo_heater)
  = [Track "sensor.boiler" sensor_changed; Track "switch.boiler" switch_changed].
Proof.
  destruct (added_to_hass_raises_iff demo_float
              {[ "sensor.boiler" := mkState "warm" ∅ ]}
              (Some demo_snapshot) demo_heater) as (_ & H).
  destruct H as (H1 & H2 & _).
  - vm_compute. reflexivity.
  - split; [exact H1 | exact H2].
Defined.

(** ** Platform setup *)

Lemma setup_loop_complete unit l : forall acc,
  forallb complete l = true ->
  setup_loop unit l acc = inr (acc ++ map (entity_of unit) l).
Proof.
  induction l as [|config l IH]; intros acc Hall; simpl.
  - rewrite app_nil_r. reflexivity.
  - simpl in Hall. apply andb_true_iff in Hall as [Hc Hl].
    unfold complete in Hc. unfold entity_of at 1.
    destruct (conf_name config) as [name|]; [|discriminate].
    destruct (conf_heater config) as [hid|]; [|discriminate].
    destruct (conf_sensor config) as [sid|]; [|discriminate].
    rewrite IH by exact Hl. rewrite <- app_assoc. reflexivity.
Qed.

Lemma complete_missing_key config :
  complete config = true <-> missing_key config = None.
Proof.
  unfold complete, missing_key.
  destruct (conf_name config), (conf_heater config), (conf_sensor config);
    split; intros H; try reflexivity; discriminate.
Qed.

(** X20. The setup is all or nothing: when some configuration lacks a
    mandatory key, [KeyError] is raised for the first key missing in the
    first such configuration and [async_add_entities] is not reached, so not
    even the entities of the complete configurations before it are added;
    and a missing [discovery_info] is a [TypeError]. *)
Theorem setup_all_or_nothing (unit : string) (good rest : list Config)
    (bad : Config) (key : ConfKey) :
  forallb complete good = true ->
  missing_key bad = Some key ->
  async_setup_platform unit (Some (good ++ bad :: rest)) = inl (KeyError key) /\
  async_setup_platform unit None = inl NoneNotIterable.
Proof.
  intros Hgood Hbad. split; [|reflexivity].
  unfold async_setup_platform. generalize (@nil GenericWaterHeater) as acc.
  induction good as [|config good IH]; intros acc; simpl.
  - unfold missing_key in Hbad.
    destruct (conf_name bad); [|congruence].
    destruct (conf_heater bad); [|congruence].
    destruct (conf_sensor bad); [discriminate|congruence].
  - simpl in Hgood. apply andb_true_iff in Hgood as [Hc Hl].
    unfold complete in Hc.
    destruct (conf_name config); [|discriminate].
    destruct (conf_heater config); [|discriminate].
    destruct (conf_sensor config); [|discriminate].
    apply IH. exact Hl.
Qed.

Lemma setup_all_or_nothing_witness :
  async_setup_platform TEMP_FAHRENHEIT
    (Some ([demo_config] ++ demo_config_no_sensor :: [demo_config]))
  = inl (KeyError CONF_SENSOR).
Proof.
  exact (proj1 (setup_all_or_nothing TEMP_FAHRENHEIT [demo_config] [demo_config]
                  demo_config_no_sensor CONF_SENSOR eq_refl eq_refl)).
Defined.

(** X21. When every configuration has the three mandatory keys, the setup
    adds exactly one entity per configuration, in the order of
    [discovery_info]; each carries its configuration and the platform's
    unit, and starts in mode "on", without a current temperature and
    unavailable. *)
Theorem setup_adds_one_entity_each (unit : string) (l : list Config) :
  forallb complete l = true ->
  async_setup_platform unit (Some l) = inr (map (entity_of unit) l) /\
  (forall entities, async_setup_platform unit (Some l) = inr entities ->
     length entities = length l /\
     forall i c, l !! i = Some c ->
       exists e, entities !! i = Some e /\
         Some (_attr_name e) = conf_name c /\
         Some (heater_entity_id e) = conf_heater c /\
         Some (sensor_entity_id e) = conf_sensor c /\
         _target_temperature e = conf_target_temp c /\
         _temperature_delta e = conf_temp_delta c /\
         _min_temp e = conf_temp_min c /\
         _max_temp e = conf_temp_max c /\
         temperature_unit e = unit /\
         current_operation e = STATE_ON /\
         current_temperature e = None /\
         _attr_available e = false).
Proof.
  intros Hall.
  assert (Hrun : async_setup_platform unit (Some l) = inr (map (entity_of unit) l)).
  { unfold async_setup_platform. rewrite setup_loop_complete by exact Hall.
    reflexivity. }
  split; [exact Hrun|].
  intros entities Hent. rewrite Hrun in Hent. injection Hent as <-.
  split; [apply length_map|].
  intros i c Hi. exists (entity_of unit c).
  split; [rewrite list_lookup_fmap, Hi; reflexivity|].
  assert (Hc : complete c = true).
  { rewrite forallb_forall in Hall. apply Hall.
    apply list_elem_of_In, list_elem_of_lookup. eauto. }
  unfold complete in Hc. unfold entity_of.
  destruct (conf_name c); [|discriminate].
  destruct (conf_heater c); [|discriminate].
  destruct (conf_sensor c); [|discriminate].
  repeat split; reflexivity.
Qed.

Lemma setup_adds_one_entity_each_witness :
  async_setup_platform TEMP_FAHRENHEIT (Some [demo_config]) = inr [demo_heater].
Proof.
  exact (proj1 (setup_adds_one_entity_each TEMP_FAHRENHEIT [demo_config] eq_refl)).
Defined.

(** ** Modes other than "on" and "off" *)

(** X22. The control re-evaluation only asks whether the mode is "off": with
    any other mode string it has the outcome it has in mode "on" and the
    same events, the content of the publication apart. *)
Theorem mode_not_off_decides_as_on (hass : gmap string State) (m : string) e :
  m <> STATE_OFF ->
  outcome (_async_control_heating hass (set_current_operation m e))
  = outcome (_async_control_heating hass (set_current_operation STATE_ON e)) /\
  non_publications (trace (_async_control_heating hass (set_current_operation m e)))
  = non_publications
      (trace (_async_control_heating hass (set_current_operation STATE_ON e))).
Proof.
  intros Hm. apply String.eqb_neq in Hm.
  destruct (_current_temperature e) as [cur|] eqn:Hcur.
  - destruct (_target_temperature e) as [tgt|] eqn:Htgt.
    + destruct (_temperature_delta e) as [tol|] eqn:Htol.
      * rewrite (control_heating_compare hass (set_current_operation m e) cur tgt tol)
          by assumption.
        rewrite (control_heating_compare hass (set_current_operation STATE_ON e)
                   cur tgt tol) by (try assumption; reflexivity).
        unfold outcome, trace, non_publications. cbn [fst snd].
        rewrite !List.filter_app. split; reflexivity.
      * rewrite (control_heating_missing_delta hass (set_current_operation m e) cur tgt)
          by assumption.
        rewrite (control_heating_missing_delta hass
                   (set_current_operation STATE_ON e) cur tgt)
          by (try assumption; reflexivity).
        split; reflexivity.
    + rewrite (control_heating_missing_target hass (set_current_operation m e) cur)
        by assumption.
      rewrite (control_heating_missing_target hass
                 (set_current_operation STATE_ON e) cur)
        by (try assumption; reflexivity).
      split; reflexivity.
  - rewrite (control_heating_no_reading hass (set_current_operation m e)) by assumption.
    rewrite (control_heating_no_reading hass (set_current_operation STATE_ON e))
      by assumption.
    split; reflexivity.
Qed.

Lemma mode_not_off_decides_as_on_witness :
  non_publications
    (trace (_async_control_heating (demo_hass STATE_OFF)
              (set_current_operation STATE_UNAVAILABLE (demo_reading 115))))
  = [Call control_heating; Call heater_turn_on;
     ServiceCall HA_DOMAIN SERVICE_TURN_ON "switch.boiler"].
Proof.
  rewrite (proj2 (mode_not_off_decides_as_on (demo_hass STATE_OFF)
                    STATE_UNAVAILABLE (demo_reading 115) ltac:(discriminate))).
  vm_compute. reflexivity.
Defined.

(** ** No heat without a reading *)

(** X23. While the current temperature is unset, no operation that brings
    no numeric reading (the bare [_async_heater_turn_on] apart) sends
    [turn_on], and the current temperature is still unset after it: once
    the failsafe has struck, heat is not asked for again before a reading
    arrives. *)
Theorem no_turn_on_without_reading (convert : pyfloat -> string -> string -> Outcome pyfloat)
    (str_to_float : string -> option pyfloat) (hass : gmap string State) op e :
  _current_temperature e = None ->
  op <> HeaterTurnOn ->
  op_reading str_to_float (sensor_entity_id e) hass op = None ->
  (forall d id, ServiceCall d SERVICE_TURN_ON id
                  ∉ trace (handle convert str_to_float hass op e)) /\
  _current_temperature (final (handle convert str_to_float hass op e)) = None.
Proof.
  intros Hcur Hop Hread. split.
  - intros d id Hin.
    assert (Hin' : ServiceCall d SERVICE_TURN_ON id
                     ∈ service_calls (trace (handle convert str_to_float hass op e)))
      by (apply elem_of_service_calls; auto).
    rewrite handle_service_calls in Hin'. clear Hin.
    assert (Hoffs : ServiceCall d SERVICE_TURN_ON id ∉ sent_off hass e).
    { intros H. apply elem_of_sent_off in H as [[=] _]. }
    assert (Hctl : forall e', _current_temperature e' = None ->
                              control_sends hass e' = []).
    { intros e' H. unfold control_sends. rewrite H. reflexivity. }
    destruct op; cbn [op_sends op_reading] in *.
    + rewrite Hctl in Hin' by exact Hcur. apply elem_of_nil in Hin'. exact Hin'.
    + rewrite Hctl in Hin' by exact Hcur. apply elem_of_nil in Hin'. exact Hin'.
    + apply elem_of_nil in Hin'. exact Hin'.
    + destruct new_state as [st|]; [|exact (Hoffs Hin')].
      destruct (is_marker (state st)); [exact (Hoffs Hin')|].
      rewrite Hread in Hin'. apply elem_of_nil in Hin'. exact Hin'.
    + apply elem_of_nil in Hin'. exact Hin'.
    + rewrite Hctl in Hin' by exact Hcur. apply elem_of_nil in Hin'. exact Hin'.
    + contradiction.
    + exact (Hoffs Hin').
    + apply elem_of_nil in Hin'. exact Hin'.
    + apply elem_of_nil in Hin'. exact Hin'.
  - destruct (handle_current_temperature convert str_to_float hass op e)
      as [H|[H|(q & Hq & _)]].
    + rewrite H. exact Hcur.
    + exact H.
    + rewrite Hread in Hq. discriminate Hq.
Qed.

Lemma no_turn_on_without_reading_witness :
  ServiceCall HA_DOMAIN SERVICE_TURN_ON "switch.boiler"
    ∉ trace (handle demo_convert demo_float (demo_hass STATE_OFF)
               (SetTemperature {[ ATTR_TEMPERATURE := (float_of_int 150) ]}) demo_heater).
Proof.
  apply (no_turn_on_without_reading demo_convert demo_float (demo_hass STATE_OFF)
           (SetTemperature {[ ATTR_TEMPERATURE := (float_of_int 150) ]}) demo_heater);
    [reflexivity | discriminate | reflexivity].
Defined.
